(** * VAG_Analysis.py: the knee osteoarthritis detector

    A shallow embedding of class [KneeOADetector] of
    [src/signal analysis/VAG_Analysis.py] and the properties of its
    signal-conditioning and diagnosis pipeline.

    Numbers are IEEE 754 binary64 values ([spec_float] with precision 53 and
    exponent bound 1024), the representation of Python's [float] and of numpy's
    [float64]; Python [int]s are [Z].  A Python call that may raise returns a
    [result].  *)

From Stdlib Require Import ZArith List Bool Lia.
From Stdlib Require Import Floats.SpecFloat.
From stdpp Require Import gmap strings.
Import ListNotations.

Open Scope Z_scope.

(** ** Python values and exceptions *)

Inductive exn : Set :=
| ValueError
| KeyError
| IndexError
| ZeroDivisionError
| OverflowError.

Inductive result (A : Type) : Type :=
| Ok (a : A)
| Raise (e : exn).

Arguments Ok {A} a.
Arguments Raise {A} e.

#[export] Instance result_ret : MRet result := fun A a => Ok a.
#[export] Instance result_bind : MBind result := fun A B f r =>
  match r with
  | Ok a => f a
  | Raise e => Raise e
  end.

Definition raises {A} (r : result A) : Prop := exists e, r = Raise e.

(** ** binary64 arithmetic *)

Abbreviation float := spec_float.

Definition prec : Z := 53.
Definition emax : Z := 1024.

Definition fadd : float -> float -> float := SFadd prec emax.
Definition fmul : float -> float -> float := SFmul prec emax.
Definition fdiv : float -> float -> float := SFdiv prec emax.

(** [a <= b], [a >= b] and [a < b] on floats: false as soon as an operand is NaN. *)
Definition fle (a b : float) : bool := SFleb a b.
Definition fge (a b : float) : bool := SFleb b a.
Definition flt (a b : float) : bool := SFltb a b.

Definition is_nan (x : float) : bool :=
  match x with S754_nan => true | _ => false end.

Definition is_zero (x : float) : bool :=
  match x with S754_zero _ => true | _ => false end.

(** A float is finite when it is neither an infinity nor NaN. *)
Definition is_finite (x : float) : bool :=
  match x with S754_zero _ | S754_finite _ _ _ => true | _ => false end.

Definition pos_zero : float := S754_zero false.
Definition pos_inf : float := S754_infinity false.

(** The float nearest to the integer [z] (exact when |z| < 2^53). *)
Definition lit (z : Z) : float := binary_normalize prec emax z 0 false.

(** [float(z)] for a Python int: OverflowError beyond the binary64 range. *)
Definition float_of_int (z : Z) : result float :=
  match lit z with
  | S754_infinity _ => Raise OverflowError
  | f => Ok f
  end.

(** [a / b] on Python ints: the correctly rounded quotient, ZeroDivisionError
    for a zero divisor, OverflowError when the quotient is out of range. *)
Definition int_truediv (a b : Z) : result float :=
  if b =? 0 then Raise ZeroDivisionError
  else
    let s := xorb (a <? 0) (b <? 0) in
    if a =? 0 then Ok (S754_zero s)
    else
      let '(q, e, l) := SFdiv_core_binary prec emax (Z.abs a) 0 (Z.abs b) 0 in
      match binary_round_aux prec emax s q e l with
      | S754_infinity _ => Raise OverflowError
      | f => Ok f
      end.

(** [a / b] on Python floats: ZeroDivisionError for a zero divisor. *)
Definition float_truediv (a b : float) : result float :=
  if is_zero b then Raise ZeroDivisionError else Ok (fdiv a b).

(** [d[k]] on a dict with string keys: KeyError when the key is absent. *)
Definition dict_get {V} (d : gmap string V) (k : string) : result V :=
  match d !! k with
  | Some v => Ok v
  | None => Raise KeyError
  end.

(** ** The detector object

    The attributes set by the constructor.  [fs] is a Python int, as in the
    default argument and in the script at the end of the module; the entries of
    [thresholds] are kept as the floats they are compared with. *)

Record KneeOADetector : Type := {
  fs : Z;
  bandpass_range : Z * Z;
  notch_freq : Z;
  thresholds : gmap string (gmap string (float * float))
}.

(** [KneeOADetector(fs)]: the constructor stores its argument and the
    constants; it has no check and no raising statement. *)
Definition __init__ (fs : Z) : result KneeOADetector :=
  Ok {| fs := fs;
        bandpass_range := (50, 600);
        notch_freq := 50;
        thresholds :=
          <[ "piezo" :=
               <[ "healthy" := (lit 30, lit 80) ]>
               (<[ "mild" := (lit 80, lit 120) ]>
               (<[ "severe" := (lit 120, pos_inf) ]> ∅)) ]>
          (<[ "mic" :=
               <[ "healthy" := (lit 100, lit 350) ]>
               (<[ "mild" := (lit 350, lit 450) ]>
               (<[ "severe" := (lit 450, pos_inf) ]> ∅)) ]> ∅) |}.

(** ** Severity logic *)

Definition get_severity_level (self : KneeOADetector) (freq : float)
    (sensor : string) : result Z :=
  t ← dict_get (thresholds self) sensor;
  severe ← dict_get t "severe";
  if fge freq (fst severe) then Ok 2
  else
    t' ← dict_get (thresholds self) sensor;
    mild ← dict_get t' "mild";
    if fge freq (fst mild) then Ok 1
    else Ok 0.

Definition research_basis : list string :=
  [ String (Ascii.ascii_of_nat 10) "--- Research Basis ---";
    "Tamura et al., 2013 – Mic >400 Hz correlates with KL3–4";
    "Chandran et al., 2021 – Piezo >120 Hz indicates sclerosis";
    "OARSI – Dual-sensor VAG improves OA detection" ].

Definition diagnose (self : KneeOADetector)
    (mic_freq piezo_freq mic_energy piezo_energy : float)
    : result (string * list string) :=
  mic_level ← get_severity_level self mic_freq "mic";
  piezo_level ← get_severity_level self piezo_freq "piezo";
  let '(diagnosis, notes) :=
    if (mic_level >=? 1) && (piezo_level =? 0) then
      ("Early Osteoarthritis (KL Grade 1–2)",
       [ "Mic shows elevated frequency → cartilage roughening.";
         "Piezo normal → joint mechanics preserved.";
         "MRI suggested for confirmation." ])
    else if (piezo_level >=? 1) && (mic_level =? 0) then
      ("Subchondral Bone Changes (Pre-OA)",
       [ "Piezo frequency elevated → bone remodeling.";
         "Mic normal → cartilage intact.";
         "X-ray recommended." ])
    else if mic_level =? piezo_level then
      if mic_level =? 2 then
        ("Severe Osteoarthritis (KL Grade 3–4)",
         [ "Both sensors show pathological vibration." ])
      else if mic_level =? 1 then
        ("Moderate Osteoarthritis (KL Grade 2–3)",
         [ "Degeneration in progress." ])
      else
        ("Healthy Knee (KL Grade 0)",
         [ "No abnormal vibro-acoustic activity detected." ])
    else
      ("Inconclusive",
       [ "Sensor disagreement detected.";
         "Repeat test or use imaging methods." ])
  in
  Ok (diagnosis, notes ++ research_basis).

(** ** Library numerics

    [numpy] and [scipy] are outside the repository.  What the detector relies
    on is modelled here: the shape of each result, the argument checks that make
    a call raise, and the IEEE rules for the element-wise operations.  The values
    computed by the transcendental kernels (window coefficients, transform
    magnitudes, filter design and filtering) are fields of [Kernels]. *)

Record Kernels : Type := {
  (** [np.hanning(M)[k]] *)
  hanning_coef : nat -> nat -> float;
  (** [np.abs(fft(x))[k]] *)
  fft_abs_bin : list float -> nat -> float;
  (** the [i]-th numerator and denominator coefficient of
      [butter(N, [lo, hi], btype='band')] *)
  butter_coef : nat -> float -> float -> nat -> float * float;
  (** the [i]-th numerator and denominator coefficient of a notch at
      normalised frequency [w0] with quality factor [Q] *)
  notch_coef : float -> float -> nat -> float * float;
  (** [filtfilt(b, a, x)[k]] for an input longer than the padding *)
  filtfilt_sample : list float -> list float -> list float -> nat -> float
}.

(** The transform of a block of zeros is zero in every bin. *)
Definition fft_zero_law (K : Kernels) : Prop :=
  forall x k, forallb is_zero x = true -> fft_abs_bin K x k = pos_zero.

(** The window coefficients are finite numbers. *)
Definition window_finite_law (K : Kernels) : Prop :=
  forall M k, is_finite (hanning_coef K M k) = true.

(** The simplest kernels that satisfy both laws: a rectangular window and the
    magnitude of the sample itself; the filter kernels return their input. *)
Definition plain_kernels : Kernels :=
  {| hanning_coef := fun _ _ => lit 1;
     fft_abs_bin := fun x k => SFabs (nth k x pos_zero);
     butter_coef := fun _ _ _ _ => (lit 1, lit 1);
     notch_coef := fun _ _ _ => (lit 1, lit 1);
     filtfilt_sample := fun _ _ x k => nth k x pos_zero |}.

(** [np.maximum] on two floats and [np.max] on an array: NaN propagates;
    an empty array raises. *)
Definition np_maximum (a b : float) : float :=
  if fge a b || is_nan a then a else b.

Definition np_max (v : list float) : result float :=
  match v with
  | [] => Raise ValueError
  | x :: r => Ok (fold_left np_maximum r x)
  end.

(** [np.argmax]: the first index holding the maximum, or the first NaN;
    an empty array raises. *)
Fixpoint argmax_from (mp : float) (best i : nat) (v : list float) : nat :=
  match v with
  | [] => best
  | x :: r =>
      if negb (fle x mp)
      then if is_nan x then i else argmax_from x i (S i) r
      else argmax_from mp best (S i) r
  end.

Definition np_argmax (v : list float) : result nat :=
  match v with
  | [] => Raise ValueError
  | x :: r => Ok (if is_nan x then 0%nat else argmax_from x 0 1 r)
  end.

(** [np.sum]: 0.0 for an empty array.  numpy adds in pairwise blocks; that
    association differs from this left-to-right one only in rounding. *)
Definition np_sum (v : list float) : float :=
  match v with
  | [] => pos_zero
  | x :: r => fold_left fadd r x
  end.

(** [v[mask]] for a boolean mask of the same length. *)
Fixpoint mask_select (mask : list bool) (v : list float) : list float :=
  match mask, v with
  | m :: mask', x :: v' =>
      if m then x :: mask_select mask' v' else mask_select mask' v'
  | _, _ => []
  end.

(** [a * b] on two one-dimensional arrays of more than one element. *)
Definition np_mul (a b : list float) : result (list float) :=
  if (length a =? length b)%nat
  then Ok (map (fun p => fmul (fst p) (snd p)) (combine a b))
  else Raise ValueError.

(** [v[i]] for a non-negative index. *)
Definition np_index (v : list float) (i : nat) : result float :=
  match nth_error v i with
  | Some x => Ok x
  | None => Raise IndexError
  end.

(** [fftfreq(n, d)]: [val = 1.0 / (n * d)], then the integers
    [0 .. N-1, -(n//2) .. -1] with [N = (n-1)//2 + 1], each times [val]. *)
Definition fftfreq (n : nat) (d : float) : result (list float) :=
  val ← float_truediv (lit 1) (fmul (lit (Z.of_nat n)) d);
  let N := Z.to_nat ((Z.of_nat n - 1) / 2 + 1) in
  let results :=
    map Z.of_nat (seq 0 N)
    ++ map (fun i => Z.of_nat i - Z.of_nat (n / 2)) (seq 0 (n / 2)) in
  Ok (map (fun k => fmul (lit k) val) results).

Section Library.
Context (K : Kernels).

Definition np_hanning (n : nat) : list float :=
  map (hanning_coef K n) (seq 0 n).

Definition np_abs_fft (x : list float) : list float :=
  map (fft_abs_bin K x) (seq 0 (length x)).

(** [butter(N, Wn, btype='band')]: a digital design rejects a critical
    frequency outside the open interval (0, 1); the result has [2N+1]
    numerator and [2N+1] denominator coefficients. *)
Definition butter (N : nat) (Wn : list float)
    : result (list float * list float) :=
  if existsb (fun w => fle w (lit 0)) Wn || existsb (fun w => fge w (lit 1)) Wn
  then Raise ValueError
  else
    match Wn with
    | [lo; hi] =>
        let c := map (butter_coef K N lo hi) (seq 0 (2 * N + 1)) in
        Ok (map fst c, map snd c)
    | _ => Raise ValueError
    end.

(** [iirnotch(w0, Q, fs)]: the frequency is normalised as [2*w0/fs] and
    rejected outside [0, 1]; the result is a second-order section with three
    numerator and three denominator coefficients. *)
Definition iirnotch (w0 Q : Z) (fs : Z) : result (list float * list float) :=
  w0f ← float_of_int w0;
  Qf ← float_of_int Q;
  fsf ← float_of_int fs;
  w ← float_truediv (fmul (lit 2) w0f) fsf;
  if flt (lit 1) w || flt w (lit 0) then Raise ValueError
  else
    let c := map (notch_coef K w Qf) (seq 0 3) in
    Ok (map fst c, map snd c).

(** [filtfilt(b, a, x)] with the default padding: the input is extended by
    [3 * max(len(a), len(b))] samples at both ends and must be longer than
    that; the result has the length of the input.  A failure of the solve for
    the initial conditions on degenerate coefficients is not modelled. *)
Definition filtfilt (b a x : list float) : result (list float) :=
  let ntaps := Nat.max (length a) (length b) in
  let edge := (3 * ntaps)%nat in
  if (length x <=? edge)%nat then Raise ValueError
  else Ok (map (filtfilt_sample K b a x) (seq 0 (length x))).

(** ** Signal preprocessing *)

Definition preprocess (self : KneeOADetector) (data : list float)
    (sensor_type : string) : result (list float) :=
  if (length data <? 10)%nat then Ok data
  else
    lo ← float_of_int (fst (bandpass_range self));
    half ← int_truediv (fs self) 2;
    w_lo ← float_truediv lo half;
    hi ← float_of_int (snd (bandpass_range self));
    half' ← int_truediv (fs self) 2;
    w_hi ← float_truediv hi half';
    '(b, a) ← butter 4 [w_lo; w_hi];
    filtered ← filtfilt b a data;
    '(b_notch, a_notch) ← iirnotch (notch_freq self) 30 (fs self);
    filtered ← filtfilt b_notch a_notch filtered;
    if String.eqb sensor_type "piezo" then
      '(b_h, a_h) ← iirnotch 100 30 (fs self);
      filtfilt b_h a_h filtered
    else Ok filtered.

(** ** Frequency analysis *)

(** The literal [1e-9]. *)
Definition eps : float := fdiv (lit 1) (lit 1000000000).

Definition analyze_signal (self : KneeOADetector) (data : list float)
    : result (option float * option (list float) * option (list float)
              * option float) :=
  let n := length data in
  if (n <? 10)%nat then Ok (None, None, None, None)
  else
    let window := np_hanning n in
    windowed ← np_mul data window;
    let fft_vals := np_abs_fft windowed in
    let fft_vals := firstn (n / 2) fft_vals in
    d ← int_truediv 1 (fs self);
    all_freqs ← fftfreq n d;
    let freqs := firstn (n / 2) all_freqs in
    m ← np_max fft_vals;
    let fft_vals := map (fun x => fdiv x m) fft_vals in
    i ← np_argmax (skipn 10 fft_vals);
    let dominant_idx := (i + 10)%nat in
    dominant_freq ← np_index freqs dominant_idx;
    let low_band :=
      map (fun f => fge f (lit 50) && flt f (lit 150)) freqs in
    let high_band :=
      map (fun f => fge f (lit 300) && flt f (lit 600)) freqs in
    let energy_ratio :=
      fdiv (np_sum (mask_select high_band fft_vals))
           (fadd (np_sum (mask_select low_band fft_vals)) eps) in
    Ok (Some dominant_freq, Some freqs, Some fft_vals, Some energy_ratio).

End Library.

(** ** Reference definitions used by the statements *)

(** A block of [n] samples equal to 0.0. *)
Definition zeros (n : nat) : list float := repeat pos_zero n.

(** The literal [349.999]: the correctly rounded quotient of two exact floats. *)
Definition f349_999 : float := fdiv (lit 349999) (lit 1000).

(** The lower bound of the interval that the table stores for a sensor and a
    severity name. *)
Definition lower_bound (self : KneeOADetector) (sensor name : string)
    : option float :=
  t ← thresholds self !! sensor;
  fst <$> t !! name.

(** The decision table with the labels as the specification words them. *)
Definition spec_decision_table (mic_level piezo_level : Z) : string :=
  if (mic_level >=? 1) && (piezo_level =? 0) then
    "Early Osteoarthritis"
  else if (piezo_level >=? 1) && (mic_level =? 0) then
    "Subchondral Bone Changes (Pre-OA)"
  else if (mic_level =? 2) && (piezo_level =? 2) then
    "Severe Osteoarthritis"
  else if (mic_level =? 1) && (piezo_level =? 1) then
    "Moderate Osteoarthritis"
  else if (mic_level =? 0) && (piezo_level =? 0) then
    "Healthy Knee"
  else "Inconclusive".

(** The same table, row by row, with the labels the detector returns: four of
    them carry the Kellgren-Lawrence grade. *)
Definition graded_decision_table (mic_level piezo_level : Z) : string :=
  if (mic_level >=? 1) && (piezo_level =? 0) then
    "Early Osteoarthritis (KL Grade 1–2)"
  else if (piezo_level >=? 1) && (mic_level =? 0) then
    "Subchondral Bone Changes (Pre-OA)"
  else if (mic_level =? 2) && (piezo_level =? 2) then
    "Severe Osteoarthritis (KL Grade 3–4)"
  else if (mic_level =? 1) && (piezo_level =? 1) then
    "Moderate Osteoarthritis (KL Grade 2–3)"
  else if (mic_level =? 0) && (piezo_level =? 0) then
    "Healthy Knee (KL Grade 0)"
  else "Inconclusive".

(** The three intervals of one sensor are contiguous, increasing, start at
    [lowest] and are unbounded above. *)
Definition contiguous_from (t : gmap string (float * float)) (lowest : float)
    : Prop :=
  exists h m s,
    t !! "healthy" = Some h /\ t !! "mild" = Some m /\ t !! "severe" = Some s /\
    fst h = lowest /\
    snd h = fst m /\ snd m = fst s /\ snd s = pos_inf /\
    flt (fst h) (snd h) = true /\ flt (fst m) (snd m) = true /\
    flt (fst s) (snd s) = true.

(** [f] lies in the half-open interval [[lo, hi)]. *)
Definition in_interval (f : float) (i : float * float) : bool :=
  fge f (fst i) && flt f (snd i).

(** The two normalised cutoffs that [preprocess] hands to [butter]. *)
Definition bandpass_cutoffs (self : KneeOADetector) : result (list float) :=
  lo ← float_of_int (fst (bandpass_range self));
  half ← int_truediv (fs self) 2;
  w_lo ← float_truediv lo half;
  hi ← float_of_int (snd (bandpass_range self));
  half' ← int_truediv (fs self) 2;
  w_hi ← float_truediv hi half';
  Ok [w_lo; w_hi].

(** The cutoffs cannot be computed, or the filter design rejects them. *)
Definition cutoffs_rejected (self : KneeOADetector) : bool :=
  match bandpass_cutoffs self with
  | Ok Wn =>
      existsb (fun w => fle w (lit 0)) Wn || existsb (fun w => fge w (lit 1)) Wn
  | Raise _ => true
  end.

(** The filter design that opens [preprocess] past the length test: the
    call [butter(4, [lo / (fs / 2), hi / (fs / 2)], btype='band')]. *)
Definition build_bandpass (K : Kernels) (self : KneeOADetector)
    : result (list float * list float) :=
  Wn ← bandpass_cutoffs self;
  butter K 4 Wn.

(** A float that is not NaN and carries the sign [s]. *)
Definition signed (s : bool) (x : float) : Prop :=
  match x with
  | S754_zero s' | S754_infinity s' | S754_finite s' _ _ => s' = s
  | S754_nan => False
  end.

(** ** Abnormality check

    [np.std] is a library kernel; [is_abnormal] counts the samples whose
    magnitude exceeds three times its value. *)

Section Abnormality.
Context (np_std : list float -> float).

Definition is_abnormal (self : KneeOADetector) (signal : list float) : bool :=
  let std := np_std signal in
  10 <? Z.of_nat (length (List.filter
                            (fun x => flt (fmul (lit 3) std) (SFabs x))
                            signal)).

End Abnormality.

(** ** Data loading

    A Python [str] is a list of code points.  [float(s)] is a parameter: it
    answers [None] where Python raises ValueError. *)

Abbreviation pystr := (list N).

(** An ASCII literal. *)
Definition py (s : string) : pystr :=
  map Ascii.N_of_ascii (String.list_ascii_of_string s).

(** The code points that [str.strip] and [str.split] treat as whitespace. *)
Definition is_space (c : N) : bool :=
  ((9 <=? c) && (c <=? 13) || (28 <=? c) && (c <=? 32)
   || (c =? 133) || (c =? 160) || (c =? 5760)
   || (8192 <=? c) && (c <=? 8202)
   || (c =? 8232) || (c =? 8233) || (c =? 8239) || (c =? 8287)
   || (c =? 12288))%N.

Fixpoint lstrip (s : pystr) : pystr :=
  match s with
  | c :: r => if is_space c then lstrip r else s
  | [] => []
  end.

(** [s.strip()] *)
Definition str_strip (s : pystr) : pystr := rev (lstrip (rev (lstrip s))).

Fixpoint starts_with (p s : pystr) : bool :=
  match p, s with
  | [], _ => true
  | a :: p', b :: s' => (a =? b)%N && starts_with p' s'
  | _ :: _, [] => false
  end.

(** [needle in s] *)
Fixpoint str_contains (needle s : pystr) : bool :=
  starts_with needle s ||
  match s with
  | [] => false
  | _ :: r => str_contains needle r
  end.

(** [s.replace(a, b)] for one-character [a] and [b]. *)
Definition str_replace (a b : N) (s : pystr) : pystr :=
  map (fun c => if (c =? a)%N then b else c) s.

(** [s.split()]: the maximal runs of non-whitespace; [cur] is the run being
    read, last character first. *)
Fixpoint split_ws_from (cur s : pystr) : list pystr :=
  match s with
  | [] => match cur with [] => [] | _ => [rev cur] end
  | c :: r =>
      if is_space c
      then match cur with
           | [] => split_ws_from [] r
           | _ => rev cur :: split_ws_from [] r
           end
      else split_ws_from (c :: cur) r
  end.

Definition str_split (s : pystr) : list pystr := split_ws_from [] s.

(** [s.split(sep)] for a one-character separator: one more piece than there
    are separators, empty pieces included. *)
Fixpoint split_on_from (sep : N) (cur s : pystr) : list pystr :=
  match s with
  | [] => [rev cur]
  | c :: r =>
      if (c =? sep)%N then rev cur :: split_on_from sep [] r
      else split_on_from sep (c :: cur) r
  end.

Definition str_split_on (sep : N) (s : pystr) : list pystr :=
  split_on_from sep [] s.

Definition pystr_eqb (a b : pystr) : bool :=
  (length a =? length b)%nat && starts_with a b.

(** [parts.index(x)]: [None] where Python raises ValueError. *)
Fixpoint list_index (x : pystr) (parts : list pystr) : option nat :=
  match parts with
  | [] => None
  | p :: r => if pystr_eqb p x then Some 0%nat else S <$> list_index x r
  end.

Section Loader.
Context (py_float : pystr -> option float).

(** The body of the loop over the lines of the file; [acc] holds [mic_data]
    and [piezo_data].  An exception caught by one of the inner handlers leaves
    the lists as they are at the moment it is raised. *)
Definition load_line (acc : list float * list float) (line : pystr)
    : list float * list float :=
  let '(mic_data, piezo_data) := acc in
  let line := str_strip line in
  match line with
  | [] => acc
  | _ =>
      if str_contains (py "Mic") line && str_contains (py "Piezo") line then
        let parts := str_split (str_replace 58 32 line) in
        match list_index (py "Mic") parts with
        | None => acc
        | Some i =>
            let mic_idx := (i + 1)%nat in
            match list_index (py "Piezo") parts with
            | None => acc
            | Some j =>
                let piezo_idx := (j + 1)%nat in
                match nth_error parts mic_idx with
                | None => acc
                | Some ms =>
                    match py_float ms with
                    | None => acc
                    | Some m =>
                        let mic_data := mic_data ++ [m] in
                        match nth_error parts piezo_idx with
                        | None => (mic_data, piezo_data)
                        | Some ps =>
                            match py_float ps with
                            | None => (mic_data, piezo_data)
                            | Some p => (mic_data, piezo_data ++ [p])
                            end
                        end
                    end
                end
            end
        end
      else if str_contains (py ",") line then
        match str_split_on 44 line with
        | [a; b] =>
            match py_float a with
            | None => acc
            | Some mic =>
                match py_float b with
                | None => acc
                | Some piezo => (mic_data ++ [mic], piezo_data ++ [piezo])
                end
            end
        | _ => acc
        end
      else acc
  end.

(** [load_data(file_path)]: [file] is the sequence of lines read from the
    path, or [None] when opening or reading it raises; every such exception is
    turned into ValueError. *)
Definition load_data (self : KneeOADetector) (file : option (list pystr))
    : result (list float * list float) :=
  match file with
  | None => Raise ValueError
  | Some lines => Ok (fold_left load_line lines ([], []))
  end.

End Loader.

(** The ASCII digits. *)
Definition is_digit (c : N) : bool := ((48 <=? c) && (c <=? 57))%N.

(** A [float] for examples: unsigned decimal integers only. *)
Fixpoint digits_value (acc : Z) (s : pystr) : option Z :=
  match s with
  | [] => Some acc
  | c :: r =>
      if ((48 <=? c) && (c <=? 57))%N
      then digits_value (10 * acc + Z.of_N (c - 48)) r
      else None
  end.

Definition digits_float (s : pystr) : option float :=
  match s with
  | [] => None
  | _ => lit <$> digits_value 0 s
  end.

(** The standard deviation for examples: a constant. *)
Definition flat_std (_ : list float) : float := pos_zero.

(** The notch design at [w0] Hz is accepted for the sampling frequency. *)
Definition notch_accepted (w0 rate : Z) : bool :=
  match
    (w0f ← float_of_int w0;
     _ ← float_of_int 30;
     fsf ← float_of_int rate;
     float_truediv (fmul (lit 2) w0f) fsf)
  with
  | Ok w => negb (flt (lit 1) w || flt w (lit 0))
  | Raise _ => false
  end.

(** A detector with the constructor's filter settings and no table. *)
Definition filter_settings (rate : Z) : KneeOADetector :=
  {| fs := rate; bandpass_range := (50, 600); notch_freq := 50;
     thresholds := ∅ |}.

(** All three filter designs of [preprocess] are accepted. *)
Definition filters_accepted (rate : Z) : bool :=
  match bandpass_cutoffs (filter_settings rate) with
  | Ok [lo; hi] =>
      negb (fle lo (lit 0)) && negb (fle hi (lit 0))
      && negb (fge lo (lit 1)) && negb (fge hi (lit 1))
      && notch_accepted 50 rate && notch_accepted 100 rate
  | _ => false
  end.

(** [p] holds at the [n] integers from [z] on. *)
Fixpoint all_from (n : nat) (z : Z) (p : Z -> bool) : bool :=
  match n with
  | O => true
  | S k => p z && all_from k (z + 1) p
  end.

(** * Properties *)

(** ** The order on floats *)

Local Ltac order_cases :=
  repeat match goal with
  | H : context [PosDef.Pos.compare_cont Eq ?a ?b] |- _ =>
      change (PosDef.Pos.compare_cont Eq a b) with (Pos.compare a b) in H
  | |- context [PosDef.Pos.compare_cont Eq ?a ?b] =>
      change (PosDef.Pos.compare_cont Eq a b) with (Pos.compare a b)
  end;
  repeat match goal with
  | H : context [Z.compare ?a ?b] |- _ =>
      destruct (Z.compare_spec a b); try discriminate H
  | H : context [Pos.compare ?a ?b] |- _ =>
      destruct (Pos.compare_spec a b); try discriminate H
  end;
  repeat match goal with
  | |- context [Z.compare ?a ?b] =>
      destruct (Z.compare_spec a b); try lia
  | |- context [Pos.compare ?a ?b] =>
      destruct (Pos.compare_spec a b); try lia
  end;
  simpl; try reflexivity; try lia.

(** [<=] on floats is transitive, NaN being related to nothing. *)
Lemma fle_trans (a b c : float) :
  fle a b = true -> fle b c = true -> fle a c = true.
Proof.
  unfold fle, SFleb, SFcompare.
  destruct a as [[]|[]| |[] m1 e1], b as [[]|[]| |[] m2 e2],
           c as [[]|[]| |[] m3 e3];
    simpl; try reflexivity; try discriminate;
    intros H1 H2; order_cases.
Qed.

Lemma fge_trans (t a b : float) :
  fge a t = true -> fle a b = true -> fge b t = true.
Proof. unfold fge. intros H1 H2. exact (fle_trans t a b H1 H2). Qed.

(** ** The thresholds table and the severity levels *)

Lemma sensor_kinds (rate : Z) (d : KneeOADetector) (sensor : string) :
  __init__ rate = Ok d ->
  is_Some (thresholds d !! sensor) ->
  sensor = "piezo" \/ sensor = "mic".
Proof.
  intros [= <-] [t H]; simpl in H.
  apply lookup_insert_Some in H as [[<- _]|[_ H]]; [now left|].
  apply lookup_insert_Some in H as [[<- _]|[_ H]]; [now right|].
  rewrite lookup_empty in H; discriminate.
Qed.

Lemma lower_bound_Some (d : KneeOADetector) (sensor name : string) (x : float) :
  lower_bound d sensor name = Some x ->
  exists t i, thresholds d !! sensor = Some t /\ t !! name = Some i /\ fst i = x.
Proof.
  unfold lower_bound.
  destruct (thresholds d !! sensor) as [t|] eqn:Ht; simpl; [|discriminate].
  destruct (t !! name) as [i|] eqn:Hi; simpl; [|discriminate].
  intros [= <-]. exists t, i. repeat split; assumption.
Qed.

(** The level is decided by the two lower bounds, the higher one first. *)
Lemma get_severity_level_eq (d : KneeOADetector) (sensor : string)
    (f severe mild : float) :
  lower_bound d sensor "severe" = Some severe ->
  lower_bound d sensor "mild" = Some mild ->
  get_severity_level d f sensor
  = Ok (if fge f severe then 2 else if fge f mild then 1 else 0).
Proof.
  intros Hs Hm.
  apply lower_bound_Some in Hs as (t & s & Ht & Hs & <-).
  apply lower_bound_Some in Hm as (t' & m & Ht' & Hm & <-).
  rewrite Ht in Ht'; injection Ht' as <-.
  unfold get_severity_level, dict_get. rewrite Ht; simpl. rewrite Hs; simpl.
  destruct (fge f (fst s)); [reflexivity|].
  rewrite Hm; simpl. now destruct (fge f (fst m)).
Qed.

Lemma lower_bounds_mic (rate : Z) (d : KneeOADetector) :
  __init__ rate = Ok d ->
  lower_bound d "mic" "severe" = Some (lit 450) /\
  lower_bound d "mic" "mild" = Some (lit 350).
Proof. intros [= <-]. split; vm_compute; reflexivity. Qed.

Lemma lower_bounds_piezo (rate : Z) (d : KneeOADetector) :
  __init__ rate = Ok d ->
  lower_bound d "piezo" "severe" = Some (lit 120) /\
  lower_bound d "piezo" "mild" = Some (lit 80).
Proof. intros [= <-]. split; vm_compute; reflexivity. Qed.

Lemma lower_bounds (rate : Z) (d : KneeOADetector) (sensor : string) :
  __init__ rate = Ok d ->
  is_Some (thresholds d !! sensor) ->
  exists severe mild,
    lower_bound d sensor "severe" = Some severe /\
    lower_bound d sensor "mild" = Some mild.
Proof.
  intros Hd Hs. destruct (sensor_kinds rate d sensor Hd Hs) as [-> | ->].
  - destruct (lower_bounds_piezo rate d Hd); eauto.
  - destruct (lower_bounds_mic rate d Hd); eauto.
Qed.

Lemma level_range (f severe mild : float) :
  let l := if fge f severe then 2 else if fge f mild then 1 else 0 in
  l = 0 \/ l = 1 \/ l = 2.
Proof. simpl. destruct (fge f severe), (fge f mild); auto. Qed.

(** C2: for either sensor kind, 'mic' and 'piezo', and every frequency,
    classification tests the severe lower bound first, then the mild one, both
    inclusive, and answers Healthy otherwise; the table has these two sensor
    kinds and no other; on the mic channel 350.0 Hz is Mild, 349.999 Hz is
    Healthy and 450.0 Hz is Severe. *)
Theorem severity_thresholds_high_to_low (rate : Z) (f : float) :
  exists d, __init__ rate = Ok d /\
    (forall sensor,
       is_Some (thresholds d !! sensor) <-> sensor = "piezo" \/ sensor = "mic") /\
    lower_bound d "mic" "severe" = Some (lit 450) /\
    lower_bound d "mic" "mild" = Some (lit 350) /\
    lower_bound d "piezo" "severe" = Some (lit 120) /\
    lower_bound d "piezo" "mild" = Some (lit 80) /\
    get_severity_level d f "mic"
    = Ok (if fge f (lit 450) then 2 else if fge f (lit 350) then 1 else 0) /\
    get_severity_level d f "piezo"
    = Ok (if fge f (lit 120) then 2 else if fge f (lit 80) then 1 else 0) /\
    get_severity_level d (lit 350) "mic" = Ok 1 /\
    get_severity_level d f349_999 "mic" = Ok 0 /\
    get_severity_level d (lit 450) "mic" = Ok 2.
Proof.
  destruct (__init__ rate) as [d|] eqn:Hd; [|discriminate].
  exists d. split; [reflexivity|].
  destruct (lower_bounds_mic rate d Hd) as [Hs Hm].
  destruct (lower_bounds_piezo rate d Hd) as [Hs' Hm'].
  split.
  - intros sensor. split; [exact (sensor_kinds rate d sensor Hd)|].
    intros [-> | ->].
    + apply lower_bound_Some in Hs' as (t & _ & Ht & _). now exists t.
    + apply lower_bound_Some in Hs as (t & _ & Ht & _). now exists t.
  - repeat split; try assumption.
    + exact (get_severity_level_eq d "mic" f _ _ Hs Hm).
    + exact (get_severity_level_eq d "piezo" f _ _ Hs' Hm').
    + rewrite (get_severity_level_eq d "mic" _ _ _ Hs Hm); reflexivity.
    + rewrite (get_severity_level_eq d "mic" _ _ _ Hs Hm); reflexivity.
    + rewrite (get_severity_level_eq d "mic" _ _ _ Hs Hm); reflexivity.
Qed.

Lemma severity_thresholds_high_to_low_witness :
  exists d, __init__ 5000 = Ok d /\
    is_Some (thresholds d !! "piezo") /\ is_Some (thresholds d !! "mic") /\
    get_severity_level d (lit 100) "mic" = Ok 0 /\
    get_severity_level d (lit 100) "piezo" = Ok 1.
Proof.
  destruct (severity_thresholds_high_to_low 5000 (lit 100))
    as (d & Hd & Hk & _ & _ & _ & _ & Hmic & Hpiezo & _).
  exists d. split; [exact Hd|].
  split; [apply Hk; now left|]. split; [apply Hk; now right|].
  split; [rewrite Hmic|rewrite Hpiezo]; reflexivity.
Defined.

(** C10: for either sensor kind, 'mic' and 'piezo', the level is 0, 1 or 2 at
    every float, also below the lower bound stored for 'healthy', and it does
    not decrease when the frequency increases. *)
Theorem severity_monotone (rate : Z) (f1 f2 : float) :
  exists d, __init__ rate = Ok d /\
    forall sensor, sensor = "piezo" \/ sensor = "mic" ->
      exists l1 l2,
        get_severity_level d f1 sensor = Ok l1 /\
        get_severity_level d f2 sensor = Ok l2 /\
        (l1 = 0 \/ l1 = 1 \/ l1 = 2) /\
        (l2 = 0 \/ l2 = 1 \/ l2 = 2) /\
        (fle f1 f2 = true -> l1 <= l2).
Proof.
  destruct (__init__ rate) as [d|] eqn:Hd; [|discriminate].
  exists d. split; [reflexivity|]. intros sensor Hk.
  assert (Hb : exists s m, lower_bound d sensor "severe" = Some s /\
                           lower_bound d sensor "mild" = Some m).
  { destruct Hk as [-> | ->].
    - destruct (lower_bounds_piezo rate d Hd); eauto.
    - destruct (lower_bounds_mic rate d Hd); eauto. }
  destruct Hb as (s & m & Hs & Hm).
  do 2 eexists.
  split; [exact (get_severity_level_eq d sensor f1 s m Hs Hm)|].
  split; [exact (get_severity_level_eq d sensor f2 s m Hs Hm)|].
  split; [apply level_range|]. split; [apply level_range|].
  intros Hle.
  destruct (fge f1 s) eqn:H1s.
  - rewrite (fge_trans s f1 f2 H1s Hle). lia.
  - destruct (fge f1 m) eqn:H1m.
    + rewrite (fge_trans m f1 f2 H1m Hle). destruct (fge f2 s); lia.
    + destruct (fge f2 s), (fge f2 m); lia.
Qed.

Lemma severity_monotone_witness :
  exists d, __init__ 5000 = Ok d /\
    (exists l1 l2,
       get_severity_level d (lit 10) "piezo" = Ok l1 /\
       get_severity_level d (lit 90) "piezo" = Ok l2 /\ l1 <= l2) /\
    (exists l1 l2,
       get_severity_level d (lit 10) "mic" = Ok l1 /\
       get_severity_level d (lit 90) "mic" = Ok l2 /\ l1 <= l2).
Proof.
  destruct (severity_monotone 5000 (lit 10) (lit 90)) as (d & Hd & H).
  exists d. split; [exact Hd|]. split.
  - destruct (H "piezo" (or_introl eq_refl)) as (l1 & l2 & H1 & H2 & _ & _ & Hle).
    exists l1, l2. repeat split; try assumption. apply Hle. reflexivity.
  - destruct (H "mic" (or_intror eq_refl)) as (l1 & l2 & H1 & H2 & _ & _ & Hle).
    exists l1, l2. repeat split; try assumption. apply Hle. reflexivity.
Defined.

(** ** The decision table *)

Lemma get_severity_level_total (rate : Z) (d : KneeOADetector) (sensor : string)
    (f : float) :
  __init__ rate = Ok d ->
  sensor = "piezo" \/ sensor = "mic" ->
  exists l, get_severity_level d f sensor = Ok l /\ (l = 0 \/ l = 1 \/ l = 2).
Proof.
  intros Hd Hk.
  assert (Hb : exists s m, lower_bound d sensor "severe" = Some s /\
                           lower_bound d sensor "mild" = Some m).
  { destruct Hk as [-> | ->].
    - destruct (lower_bounds_piezo rate d Hd); eauto.
    - destruct (lower_bounds_mic rate d Hd); eauto. }
  destruct Hb as (s & m & Hs & Hm).
  eexists. split; [exact (get_severity_level_eq d sensor f s m Hs Hm)|].
  apply level_range.
Qed.

(** On levels in range the nested tests of [diagnose] and the six rows of the
    table select the same label. *)
Lemma diagnose_rows (self : KneeOADetector) (mf pf me pe : float) (ml pl : Z) :
  get_severity_level self mf "mic" = Ok ml ->
  get_severity_level self pf "piezo" = Ok pl ->
  ml = 0 \/ ml = 1 \/ ml = 2 ->
  pl = 0 \/ pl = 1 \/ pl = 2 ->
  exists notes,
    diagnose self mf pf me pe = Ok (graded_decision_table ml pl, notes).
Proof.
  intros Hm Hp Rm Rp. unfold diagnose. rewrite Hm; simpl. rewrite Hp; simpl.
  destruct Rm as [-> | [-> | ->]], Rp as [-> | [-> | ->]];
    eexists; reflexivity.
Qed.

(** C1, as the detector implements it: the label is read off the table over
    the two severity levels, the two single-channel rows first, so that (2,0)
    is "Early Osteoarthritis (KL Grade 1–2)" and not "Inconclusive"; the labels
    of four rows carry the Kellgren-Lawrence grade. *)
Theorem diagnose_graded_table (rate : Z) (mic_freq piezo_freq mic_energy
    piezo_energy : float) :
  exists d mic_level piezo_level notes,
    __init__ rate = Ok d /\
    get_severity_level d mic_freq "mic" = Ok mic_level /\
    get_severity_level d piezo_freq "piezo" = Ok piezo_level /\
    0 <= mic_level <= 2 /\ 0 <= piezo_level <= 2 /\
    diagnose d mic_freq piezo_freq mic_energy piezo_energy
    = Ok (graded_decision_table mic_level piezo_level, notes) /\
    graded_decision_table 2 0 = "Early Osteoarthritis (KL Grade 1–2)" /\
    graded_decision_table 1 0 = "Early Osteoarthritis (KL Grade 1–2)" /\
    graded_decision_table 0 1 = "Subchondral Bone Changes (Pre-OA)" /\
    graded_decision_table 2 2 = "Severe Osteoarthritis (KL Grade 3–4)" /\
    graded_decision_table 1 1 = "Moderate Osteoarthritis (KL Grade 2–3)" /\
    graded_decision_table 0 0 = "Healthy Knee (KL Grade 0)" /\
    graded_decision_table 1 2 = "Inconclusive" /\
    graded_decision_table 2 1 = "Inconclusive".
Proof.
  destruct (__init__ rate) as [d|] eqn:Hd; [|discriminate].
  destruct (get_severity_level_total rate d "mic" mic_freq Hd) as (ml & Hm & Rm);
    [now right|].
  destruct (get_severity_level_total rate d "piezo" piezo_freq Hd)
    as (pl & Hp & Rp); [now left|].
  destruct (diagnose_rows d mic_freq piezo_freq mic_energy piezo_energy ml pl
              Hm Hp Rm Rp) as (notes & Hn).
  exists d, ml, pl, notes.
  repeat split; try assumption; try reflexivity; lia.
Qed.

(** C1, as stated, fails: at (350 Hz, 0 Hz) the levels are (1, 0) and the
    label returned is not the one the specification gives for that row. *)
Lemma diagnose_label_not_spec_table :
  exists d label notes,
    __init__ 5000 = Ok d /\
    get_severity_level d (lit 350) "mic" = Ok 1 /\
    get_severity_level d (lit 0) "piezo" = Ok 0 /\
    diagnose d (lit 350) (lit 0) pos_zero pos_zero = Ok (label, notes) /\
    label = "Early Osteoarthritis (KL Grade 1–2)" /\
    label <> spec_decision_table 1 0.
Proof.
  do 3 eexists. split; [reflexivity|].
  split; [vm_compute; reflexivity|].
  split; [vm_compute; reflexivity|].
  split; [vm_compute; reflexivity|].
  split; [reflexivity|]. vm_compute. discriminate.
Qed.

(** ** Coverage of the stored intervals *)

(** C9, as the table is written: for each sensor the three intervals are
    contiguous and increasing and the last one is unbounded above; the first
    one starts at 30 Hz for the piezo channel and at 100 Hz for the mic
    channel, both above 0. *)
Theorem thresholds_contiguous (rate : Z) :
  exists d, __init__ rate = Ok d /\
    forall sensor t,
      thresholds d !! sensor = Some t ->
      exists lowest,
        contiguous_from t lowest /\
        flt (lit 0) lowest = true /\
        (sensor = "piezo" /\ lowest = lit 30 \/
         sensor = "mic" /\ lowest = lit 100).
Proof.
  eexists. split; [reflexivity|]. intros sensor t H; simpl in H.
  apply lookup_insert_Some in H as [[<- <-]|[_ H]].
  { exists (lit 30). split; [|split; [reflexivity|now left]].
    do 3 eexists. repeat split; vm_compute; reflexivity. }
  apply lookup_insert_Some in H as [[<- <-]|[_ H]].
  { exists (lit 100). split; [|split; [reflexivity|now right]].
    do 3 eexists. repeat split; vm_compute; reflexivity. }
  rewrite lookup_empty in H; discriminate.
Qed.

Lemma thresholds_contiguous_witness :
  exists d t, __init__ 5000 = Ok d /\
    thresholds d !! "mic" = Some t /\ contiguous_from t (lit 100).
Proof.
  destruct (thresholds_contiguous 5000) as (d & Hd & H).
  injection Hd as <-.
  eexists; eexists. split; [reflexivity|].
  split; [vm_compute; reflexivity|].
  match goal with
  | |- contiguous_from ?t _ =>
      destruct (H "mic" t) as (lo & Hc & _ & [[Hk _] | [_ ->]])
  end.
  - vm_compute. reflexivity.
  - discriminate Hk.
  - exact Hc.
Defined.

(** C9, as stated, fails: the intervals stored for the piezo channel do not
    start at 0, and 10 Hz lies in none of them. *)
Lemma thresholds_do_not_start_at_zero :
  exists d t h m s,
    __init__ 5000 = Ok d /\
    thresholds d !! "piezo" = Some t /\
    t !! "healthy" = Some h /\ t !! "mild" = Some m /\ t !! "severe" = Some s /\
    fst h = lit 30 /\
    ~ contiguous_from t (lit 0) /\
    in_interval (lit 10) h = false /\
    in_interval (lit 10) m = false /\
    in_interval (lit 10) s = false.
Proof.
  do 5 eexists. split; [reflexivity|].
  split; [vm_compute; reflexivity|].
  split; [vm_compute; reflexivity|].
  split; [vm_compute; reflexivity|].
  split; [vm_compute; reflexivity|].
  split; [reflexivity|].
  split; [|repeat split; reflexivity].
  intros (h & m & s & Hh & _ & _ & H0 & _).
  vm_compute in Hh. injection Hh as <-. vm_compute in H0. discriminate H0.
Qed.

(** ** Rounding keeps the sign *)

Lemma shr_1_nonneg (mrs : shr_record) :
  0 <= shr_m mrs -> 0 <= shr_m (shr_1 mrs).
Proof.
  destruct mrs as [m r s]; simpl.
  destruct m as [|[p|p|]|[p|p|]]; simpl; lia.
Qed.

Lemma iter_pos_invariant {A : Type} (P : A -> Prop) (f : A -> A) :
  (forall x, P x -> P (f x)) ->
  forall p x, P x -> P (SpecFloat.iter_pos f p x).
Proof.
  intros Hf. induction p as [p IH|p IH|]; intros x Hx; simpl.
  - apply IH, IH, Hf, Hx.
  - apply IH, IH, Hx.
  - apply Hf, Hx.
Qed.

Lemma shr_nonneg (mrs : shr_record) (e n : Z) :
  0 <= shr_m mrs -> 0 <= shr_m (fst (shr mrs e n)).
Proof.
  intros H. unfold shr. destruct n as [|p|p]; simpl; try assumption.
  apply (iter_pos_invariant (fun r => 0 <= shr_m r)); [apply shr_1_nonneg|exact H].
Qed.

Lemma shr_fexp_nonneg (m e : Z) (l : location) :
  0 <= m -> 0 <= shr_m (fst (shr_fexp prec emax m e l)).
Proof.
  intros H. unfold shr_fexp. apply shr_nonneg.
  destruct l as [|[]]; exact H.
Qed.

Lemma round_nearest_even_nonneg (m : Z) (l : location) :
  0 <= m -> 0 <= round_nearest_even m l.
Proof.
  intros H. unfold round_nearest_even.
  destruct l as [|[]]; try destruct (Z.even m); lia.
Qed.

(** Rounding a non-negative mantissa never gives NaN and keeps the sign. *)
Lemma binary_round_aux_signed (s : bool) (m e : Z) (l : location) :
  0 <= m -> signed s (binary_round_aux prec emax s m e l).
Proof.
  intros H. unfold binary_round_aux.
  pose proof (shr_fexp_nonneg m e l H) as H1.
  destruct (shr_fexp prec emax m e l) as [mrs' e']; simpl in H1.
  pose proof (shr_fexp_nonneg
                (round_nearest_even (shr_m mrs') (loc_of_shr_record mrs')) e'
                loc_Exact (round_nearest_even_nonneg _ _ H1)) as H2.
  destruct (shr_fexp prec emax _ e' loc_Exact) as [mrs'' e'']; simpl in H2.
  destruct (shr_m mrs'') as [|p|p]; simpl; [reflexivity| |lia].
  destruct (e'' <=? emax - prec); reflexivity.
Qed.

Lemma SFdiv_core_binary_nonneg (m1 e1 m2 e2 : Z) :
  0 <= m1 -> 0 < m2 ->
  0 <= fst (fst (SFdiv_core_binary prec emax m1 e1 m2 e2)).
Proof.
  intros H1 H2. unfold SFdiv_core_binary.
  set (s := _ - _ - _).
  set (m' := match s with Z0 => m1 | Zpos _ => Z.shiftl m1 s | Zneg _ => 0 end).
  assert (Hm' : 0 <= m').
  { subst m'. destruct s; try lia. now apply Z.shiftl_nonneg. }
  pose proof (Z_div_mod m' m2 ltac:(lia)) as Hd.
  destruct (Z.div_eucl m' m2) as [q r]; simpl. nia.
Qed.

(** The quotient of a positive and a negative finite float is signed negative. *)
Lemma fdiv_pos_neg (mx : positive) (ex : Z) (my : positive) (ey : Z) :
  signed true (fdiv (S754_finite false mx ex) (S754_finite true my ey)).
Proof.
  unfold fdiv, SFdiv.
  pose proof (SFdiv_core_binary_nonneg (Zpos mx) ex (Zpos my) ey
                ltac:(lia) ltac:(lia)) as H.
  destruct (SFdiv_core_binary prec emax (Zpos mx) ex (Zpos my) ey) as [[mz ez] lz].
  simpl in H. now apply binary_round_aux_signed.
Qed.

Lemma signed_neg_le_zero (x : float) : signed true x -> fle x (lit 0) = true.
Proof. destruct x as [[]|[]| |[] m e]; simpl; intros H; try discriminate H; try reflexivity; contradiction. Qed.

(** Halving a negative int gives a negative float, unless it overflows. *)
Lemma int_truediv_neg (a : Z) :
  a < 0 ->
  int_truediv a 2 = Raise OverflowError \/
  exists h, int_truediv a 2 = Ok h /\ signed true h /\ is_finite h = true.
Proof.
  intros Ha. unfold int_truediv.
  destruct (Z.eqb_spec 2 0) as [|_]; [lia|].
  destruct (Z.eqb_spec a 0) as [|_]; [lia|].
  destruct (Z.ltb_spec a 0) as [_|]; [|lia].
  change (xorb true (2 <? 0)) with true.
  pose proof (SFdiv_core_binary_nonneg (Z.abs a) 0 (Z.abs 2) 0
                ltac:(lia) ltac:(lia)) as H.
  destruct (SFdiv_core_binary prec emax (Z.abs a) 0 (Z.abs 2) 0) as [[q e] l].
  simpl in H. pose proof (binary_round_aux_signed true q e l H) as Hs.
  destruct (binary_round_aux prec emax true q e l) as [s|s| |s m e'];
    simpl in Hs; try contradiction; subst.
  - right. eexists. repeat split.
  - now left.
  - right. eexists. repeat split.
Qed.

(** ** Short signals *)

Lemma preprocess_short (K : Kernels) (self : KneeOADetector)
    (data : list float) (sensor_type : string) :
  (length data < 10)%nat -> preprocess K self data sensor_type = Ok data.
Proof.
  intros H. unfold preprocess.
  destruct (Nat.ltb_spec (length data) 10) as [_|H']; [reflexivity|lia].
Qed.

Lemma analyze_signal_short (K : Kernels) (self : KneeOADetector)
    (data : list float) :
  (length data < 10)%nat ->
  analyze_signal K self data = Ok (None, None, None, None).
Proof.
  intros H. unfold analyze_signal.
  destruct (Nat.ltb_spec (length data) 10) as [_|H']; [reflexivity|lia].
Qed.

(** C3: a signal of fewer than 10 samples is returned unchanged by
    [preprocess], and [analyze_signal] answers with four [None]s. *)
Theorem short_signal_passthrough (K : Kernels) (self : KneeOADetector)
    (data : list float) (sensor_type : string) :
  (length data < 10)%nat ->
  preprocess K self data sensor_type = Ok data /\
  analyze_signal K self data = Ok (None, None, None, None).
Proof.
  intros H. split.
  - now apply preprocess_short.
  - now apply analyze_signal_short.
Qed.

Lemma short_signal_passthrough_witness :
  exists d,
    __init__ 5000 = Ok d /\
    preprocess plain_kernels d [lit 1; lit 2; lit 3] "piezo"
    = Ok [lit 1; lit 2; lit 3] /\
    analyze_signal plain_kernels d [lit 1; lit 2; lit 3]
    = Ok (None, None, None, None).
Proof.
  eexists. split; [reflexivity|].
  apply (short_signal_passthrough plain_kernels _ [lit 1; lit 2; lit 3] "piezo").
  simpl. lia.
Defined.

(** ** Filtering *)

Lemma bind_Ok {A B : Type} (f : A -> result B) (a : A) : (Ok a ≫= f) = f a.
Proof. reflexivity. Qed.

Lemma bind_Raise {A B : Type} (f : A -> result B) (e : exn) :
  (Raise e ≫= f) = Raise e.
Proof. reflexivity. Qed.

Lemma bind_raises {A B : Type} (f : A -> result B) (r : result A) :
  raises r -> raises (r ≫= f).
Proof. intros [e ->]. now exists e. Qed.

Lemma filtfilt_short (K : Kernels) (b a x : list float) :
  (length x <= 3 * Nat.max (length a) (length b))%nat ->
  filtfilt K b a x = Raise ValueError.
Proof.
  intros H. unfold filtfilt.
  destruct (Nat.leb_spec (length x) (3 * Nat.max (length a) (length b)));
    [reflexivity|lia].
Qed.

Lemma filtfilt_long (K : Kernels) (b a x : list float) :
  (3 * Nat.max (length a) (length b) < length x)%nat ->
  exists y, filtfilt K b a x = Ok y /\ length y = length x.
Proof.
  intros H. unfold filtfilt.
  destruct (Nat.leb_spec (length x) (3 * Nat.max (length a) (length b)));
    [lia|].
  eexists. split; [reflexivity|]. now rewrite length_map, length_seq.
Qed.

Lemma butter_accepts (K : Kernels) (N : nat) (lo hi : float) :
  fle lo (lit 0) = false -> fle hi (lit 0) = false ->
  fge lo (lit 1) = false -> fge hi (lit 1) = false ->
  exists b a, butter K N [lo; hi] = Ok (b, a) /\
    length b = (2 * N + 1)%nat /\ length a = (2 * N + 1)%nat.
Proof.
  intros H1 H2 H3 H4. unfold butter, existsb. rewrite H1, H2, H3, H4. simpl orb.
  do 2 eexists. split; [reflexivity|].
  now rewrite !length_map, length_seq.
Qed.

Lemma butter_rejects (K : Kernels) (N : nat) (Wn : list float) :
  existsb (fun w => fle w (lit 0)) Wn || existsb (fun w => fge w (lit 1)) Wn
  = true ->
  butter K N Wn = Raise ValueError.
Proof. intros H. unfold butter. now rewrite H. Qed.

(** Both notch designs of [preprocess] succeed at 5000 Hz. *)
Lemma iirnotch_5000 (K : Kernels) (w0 : Z) :
  w0 = 50 \/ w0 = 100 ->
  exists b a, iirnotch K w0 30 5000 = Ok (b, a) /\
    length b = 3%nat /\ length a = 3%nat.
Proof.
  intros [-> | ->]; unfold iirnotch.
  - replace (float_of_int 50) with (Ok (lit 50)) by (vm_compute; reflexivity).
    replace (float_of_int 30) with (Ok (lit 30)) by (vm_compute; reflexivity).
    replace (float_of_int 5000) with (Ok (lit 5000)) by (vm_compute; reflexivity).
    rewrite !bind_Ok.
    destruct (float_truediv (fmul (lit 2) (lit 50)) (lit 5000)) as [w|] eqn:E;
      vm_compute in E; [|discriminate E]. injection E as <-.
    rewrite bind_Ok.
    match goal with
    | |- context [if ?c then _ else _] =>
        replace c with false by (vm_compute; reflexivity)
    end.
    do 2 eexists. split; [reflexivity|]. now rewrite !length_map, length_seq.
  - replace (float_of_int 100) with (Ok (lit 100)) by (vm_compute; reflexivity).
    replace (float_of_int 30) with (Ok (lit 30)) by (vm_compute; reflexivity).
    replace (float_of_int 5000) with (Ok (lit 5000)) by (vm_compute; reflexivity).
    rewrite !bind_Ok.
    destruct (float_truediv (fmul (lit 2) (lit 100)) (lit 5000)) as [w|] eqn:E;
      vm_compute in E; [|discriminate E]. injection E as <-.
    rewrite bind_Ok.
    match goal with
    | |- context [if ?c then _ else _] =>
        replace c with false by (vm_compute; reflexivity)
    end.
    do 2 eexists. split; [reflexivity|]. now rewrite !length_map, length_seq.
Qed.

(** From 10 samples on, [preprocess] first computes the cutoffs and designs the
    bandpass filter. *)
Lemma preprocess_from_cutoffs (K : Kernels) (self : KneeOADetector)
    (data : list float) (sensor_type : string) :
  (10 <= length data)%nat ->
  preprocess K self data sensor_type
  = (Wn ← bandpass_cutoffs self;
     '(b, a) ← butter K 4 Wn;
     filtered ← filtfilt K b a data;
     '(b_notch, a_notch) ← iirnotch K (notch_freq self) 30 (fs self);
     filtered ← filtfilt K b_notch a_notch filtered;
     if String.eqb sensor_type "piezo" then
       '(b_h, a_h) ← iirnotch K 100 30 (fs self);
       filtfilt K b_h a_h filtered
     else Ok filtered).
Proof.
  intros H. unfold preprocess, bandpass_cutoffs.
  destruct (Nat.ltb_spec (length data) 10) as [H'|_]; [lia|].
  destruct (float_of_int (fst (bandpass_range self))); [|reflexivity].
  rewrite !bind_Ok.
  destruct (int_truediv (fs self) 2); [|reflexivity]. rewrite !bind_Ok.
  destruct (float_truediv _ _); [|reflexivity]. rewrite !bind_Ok.
  destruct (float_of_int (snd (bandpass_range self))); [|reflexivity].
  rewrite !bind_Ok.
  destruct (float_truediv _ _); [|reflexivity]. reflexivity.
Qed.

Lemma cutoffs_5000 (d : KneeOADetector) :
  __init__ 5000 = Ok d ->
  exists lo hi, bandpass_cutoffs d = Ok [lo; hi] /\
    fle lo (lit 0) = false /\ fle hi (lit 0) = false /\
    fge lo (lit 1) = false /\ fge hi (lit 1) = false.
Proof.
  intros [= <-].
  destruct (bandpass_cutoffs _) as [Wn|] eqn:E; vm_compute in E;
    [|discriminate E].
  injection E as <-. do 2 eexists. split; [reflexivity|].
  repeat split; vm_compute; reflexivity.
Qed.

(** C4 fails on the code: at the default 5000 Hz a signal of 10 to 27
    samples passes the length test of [preprocess] and is then refused by the
    bandpass [filtfilt], whose padding is 3 * 9 = 27 samples. *)
Theorem preprocess_raises_below_28 (K : Kernels) (data : list float)
    (sensor_type : string) :
  exists d, __init__ 5000 = Ok d /\
    ((10 <= length data <= 27)%nat ->
     preprocess K d data sensor_type = Raise ValueError).
Proof.
  destruct (__init__ 5000) as [d|] eqn:Hd; [|discriminate].
  exists d. split; [reflexivity|]. intros [H10 H27].
  rewrite preprocess_from_cutoffs by exact H10.
  destruct (cutoffs_5000 d Hd) as (lo & hi & -> & H1 & H2 & H3 & H4).
  rewrite bind_Ok.
  destruct (butter_accepts K 4 lo hi H1 H2 H3 H4) as (b & a & -> & Hb & Ha).
  rewrite bind_Ok. cbn beta iota.
  rewrite filtfilt_short; [reflexivity|]. rewrite Ha, Hb. simpl. lia.
Qed.

Lemma preprocess_raises_below_28_witness :
  exists d, __init__ 5000 = Ok d /\
    preprocess plain_kernels d (zeros 10) "mic" = Raise ValueError.
Proof.
  destruct (preprocess_raises_below_28 plain_kernels (zeros 10) "mic")
    as (d & Hd & H).
  exists d. split; [exact Hd|]. apply H. simpl. lia.
Defined.

(** From 28 samples on, and at 5000 Hz, the three filters run and the output
    has the length of the input. *)
Lemma preprocess_length_from_28 (K : Kernels) (d : KneeOADetector)
    (data : list float) (sensor_type : string) :
  __init__ 5000 = Ok d ->
  (28 <= length data)%nat ->
  exists y, preprocess K d data sensor_type = Ok y /\ length y = length data.
Proof.
  intros Hd H. rewrite preprocess_from_cutoffs by lia.
  destruct (cutoffs_5000 d Hd) as (lo & hi & -> & H1 & H2 & H3 & H4).
  rewrite bind_Ok.
  destruct (butter_accepts K 4 lo hi H1 H2 H3 H4) as (b & a & -> & Hb & Ha).
  rewrite bind_Ok. cbn beta iota.
  destruct (filtfilt_long K b a data) as (y1 & -> & L1).
  { rewrite Ha, Hb. simpl. lia. }
  rewrite bind_Ok.
  injection Hd as <-. cbn [notch_freq fs].
  destruct (iirnotch_5000 K 50 (or_introl eq_refl)) as (bn & an & -> & Hbn & Han).
  rewrite bind_Ok. cbn beta iota.
  destruct (filtfilt_long K bn an y1) as (y2 & -> & L2).
  { rewrite Han, Hbn, L1. simpl. lia. }
  rewrite bind_Ok.
  destruct (String.eqb sensor_type "piezo").
  - destruct (iirnotch_5000 K 100 (or_intror eq_refl)) as (bh & ah & -> & Hbh & Hah).
    rewrite bind_Ok. cbn beta iota.
    destruct (filtfilt_long K bh ah y2) as (y3 & -> & L3).
    { rewrite Hah, Hbh, L2, L1. simpl. lia. }
    exists y3. split; [reflexivity|]. congruence.
  - exists y2. split; [reflexivity|]. congruence.
Qed.

(** ** Configuration errors *)

Lemma preprocess_rejected (K : Kernels) (self : KneeOADetector)
    (data : list float) (sensor_type : string) :
  (10 <= length data)%nat ->
  cutoffs_rejected self = true ->
  raises (preprocess K self data sensor_type).
Proof.
  intros H Hr. rewrite preprocess_from_cutoffs by exact H.
  unfold cutoffs_rejected in Hr.
  destruct (bandpass_cutoffs self) as [Wn|e].
  - rewrite bind_Ok, (butter_rejects K 4 Wn Hr). now exists ValueError.
  - now exists e.
Qed.

Lemma cutoffs_rejected_upto_1200 :
  forallb (fun r => match __init__ (Z.of_nat r) with
                    | Ok d => cutoffs_rejected d
                    | Raise _ => false
                    end) (seq 0 1201) = true.
Proof. vm_compute. reflexivity. Qed.

Lemma cutoffs_rejected_negative (rate : Z) (d : KneeOADetector) :
  __init__ rate = Ok d -> rate < 0 -> cutoffs_rejected d = true.
Proof.
  intros [= <-] Hneg. unfold cutoffs_rejected, bandpass_cutoffs.
  cbn [fs bandpass_range fst snd].
  replace (float_of_int 50) with (Ok (lit 50)) by (vm_compute; reflexivity).
  replace (float_of_int 600) with (Ok (lit 600)) by (vm_compute; reflexivity).
  rewrite bind_Ok.
  destruct (int_truediv_neg rate Hneg) as [-> | (h & -> & Hs & Hf)];
    [reflexivity|].
  rewrite bind_Ok. unfold float_truediv.
  destruct h as [s|s| |s m e]; simpl in Hs, Hf; try discriminate Hf;
    subst; simpl is_zero; cbn iota; [reflexivity|].
  rewrite !bind_Ok.
  change (lit 50) with (S754_finite false 7036874417766400 (-47)).
  cbn [is_zero]. rewrite bind_Ok. cbn [existsb].
  rewrite (signed_neg_le_zero _ (fdiv_pos_neg _ _ m e)). reflexivity.
Qed.

Lemma cutoffs_rejected_le_1200 (rate : Z) (d : KneeOADetector) :
  __init__ rate = Ok d -> rate <= 1200 -> cutoffs_rejected d = true.
Proof.
  intros Hd Hle. destruct (Z.ltb_spec rate 0) as [Hneg|Hpos].
  - exact (cutoffs_rejected_negative rate d Hd Hneg).
  - pose proof cutoffs_rejected_upto_1200 as H.
    rewrite forallb_forall in H.
    specialize (H (Z.to_nat rate)).
    rewrite Z2Nat.id, Hd in H by exact Hpos.
    apply H, in_seq. lia.
Qed.

Lemma preprocess_from_build (K : Kernels) (self : KneeOADetector)
    (data : list float) (sensor_type : string) (e : exn) :
  (10 <= length data)%nat ->
  build_bandpass K self = Raise e ->
  preprocess K self data sensor_type = Raise e.
Proof.
  intros H Hb. rewrite preprocess_from_cutoffs by exact H.
  unfold build_bandpass in Hb.
  destruct (bandpass_cutoffs self) as [Wn|e'].
  - rewrite bind_Ok in Hb. rewrite bind_Ok, Hb. reflexivity.
  - rewrite bind_Raise in Hb. rewrite bind_Raise. now injection Hb as ->.
Qed.

Lemma build_bandpass_rejected (K : Kernels) (self : KneeOADetector) :
  cutoffs_rejected self = true -> raises (build_bandpass K self).
Proof.
  unfold cutoffs_rejected, build_bandpass. intros Hr.
  destruct (bandpass_cutoffs self) as [Wn|e].
  - rewrite bind_Ok, (butter_rejects K 4 Wn Hr). now exists ValueError.
  - now exists e.
Qed.

(** C8: for every sampling frequency of at most 1200 Hz, zero and negative
    ones included, the constructor returns the detector and building the
    bandpass filter reports an error: no coefficients are produced, and
    [preprocess] hands that same error on for every signal of at least 10
    samples, without filtering any sample. *)
Theorem configuration_error_in_preprocess (rate : Z) :
  rate <= 1200 ->
  exists d, __init__ rate = Ok d /\ fs d = rate /\
    forall K : Kernels, exists e,
      build_bandpass K d = Raise e /\
      forall (data : list float) (sensor_type : string),
        (10 <= length data)%nat ->
        preprocess K d data sensor_type = Raise e.
Proof.
  intros Hle.
  destruct (__init__ rate) as [d|] eqn:Hd; [|discriminate].
  exists d. split; [reflexivity|]. split; [now injection Hd as <-|].
  intros K.
  destruct (build_bandpass_rejected K d (cutoffs_rejected_le_1200 rate d Hd Hle))
    as [e He].
  exists e. split; [exact He|].
  intros data sensor_type H. now apply preprocess_from_build.
Qed.

Lemma configuration_error_in_preprocess_witness :
  exists d e, __init__ 1200 = Ok d /\
    build_bandpass plain_kernels d = Raise e /\
    preprocess plain_kernels d (zeros 40) "mic" = Raise e.
Proof.
  destruct (configuration_error_in_preprocess 1200 ltac:(lia))
    as (d & Hd & _ & H).
  destruct (H plain_kernels) as (e & He & Hp).
  exists d, e. split; [exact Hd|]. split; [exact He|].
  apply Hp. simpl. lia.
Defined.

(** ** Spectral analysis *)

Lemma np_mul_same_length (a b : list float) :
  length a = length b ->
  exists w, np_mul a b = Ok w /\ length w = length a.
Proof.
  intros H. unfold np_mul. rewrite H, Nat.eqb_refl.
  eexists. split; [reflexivity|].
  rewrite length_map, length_combine, H. apply Nat.min_id.
Qed.

Lemma np_hanning_length (K : Kernels) (n : nat) : length (np_hanning K n) = n.
Proof. unfold np_hanning. now rewrite length_map, length_seq. Qed.

Lemma np_abs_fft_length (K : Kernels) (x : list float) :
  length (np_abs_fft K x) = length x.
Proof. unfold np_abs_fft. now rewrite length_map, length_seq. Qed.

Lemma np_max_nonempty (v : list float) :
  (0 < length v)%nat -> exists m, np_max v = Ok m.
Proof. destruct v as [|x r]; simpl; [lia|]. intros _. now eexists. Qed.

Lemma fftfreq_short_blocks :
  forallb (fun n => match d ← int_truediv 1 5000; fftfreq n d with
                    | Ok _ => true
                    | Raise _ => false
                    end) (seq 10 12) = true.
Proof. vm_compute. reflexivity. Qed.

(** C5 fails on the code: at the default 5000 Hz a signal of 10 to 21
    samples passes the length test of [analyze_signal], its one-sided spectrum
    has at most 10 bins, nothing is left once the first 10 are dropped, and
    [np.argmax] raises on the empty slice. *)
Theorem analyze_signal_raises_below_22 (K : Kernels) (data : list float) :
  exists d, __init__ 5000 = Ok d /\
    ((10 <= length data <= 21)%nat ->
     analyze_signal K d data = Raise ValueError).
Proof.
  eexists. split; [reflexivity|]. intros [H10 H21].
  unfold analyze_signal. cbn [fs].
  destruct (Nat.ltb_spec (length data) 10) as [H'|_]; [lia|].
  destruct (np_mul_same_length data (np_hanning K (length data)))
    as (w & -> & Lw); [now rewrite np_hanning_length|].
  rewrite bind_Ok.
  pose proof fftfreq_short_blocks as Hf. rewrite forallb_forall in Hf.
  specialize (Hf (length data) ltac:(apply in_seq; lia)). cbv beta in Hf.
  destruct (int_truediv 1 5000) as [d0|]; [|discriminate Hf].
  rewrite bind_Ok in Hf. rewrite bind_Ok.
  destruct (fftfreq (length data) d0) as [freqs|]; [|discriminate Hf].
  rewrite bind_Ok.
  assert (Hdiv : (5 <= length data / 2 <= 10)%nat).
  { split; [apply Nat.div_le_lower_bound; lia|].
    apply Nat.lt_succ_r, Nat.Div0.div_lt_upper_bound; lia. }
  assert (Lv : length (firstn (length data / 2) (np_abs_fft K w))
               = (length data / 2)%nat).
  { rewrite length_firstn, np_abs_fft_length, Lw.
    apply Nat.min_l, Nat.Div0.div_le_upper_bound; lia. }
  destruct (np_max_nonempty (firstn (length data / 2) (np_abs_fft K w)))
    as (m & ->); [lia|].
  rewrite bind_Ok. rewrite skipn_all2; [reflexivity|].
  rewrite length_map, Lv. lia.
Qed.

Lemma analyze_signal_raises_below_22_witness :
  exists d, __init__ 5000 = Ok d /\
    analyze_signal plain_kernels d
      (map lit [1; 2; 3; 4; 5; 6; 7; 8; 9; 10]) = Raise ValueError.
Proof.
  destruct (analyze_signal_raises_below_22 plain_kernels
              (map lit [1; 2; 3; 4; 5; 6; 7; 8; 9; 10])) as (d & Hd & H).
  exists d. split; [exact Hd|]. apply H. simpl. lia.
Defined.

(** *** The flat signal *)

Lemma plain_kernels_lawful :
  fft_zero_law plain_kernels /\ window_finite_law plain_kernels.
Proof.
  split.
  - intros x k Hx. simpl.
    destruct (nth_in_or_default k x pos_zero) as [Hin| ->]; [|reflexivity].
    rewrite forallb_forall in Hx. specialize (Hx _ Hin).
    now destruct (nth k x pos_zero).
  - intros M k. reflexivity.
Qed.

Lemma fmul_zero_finite (y : float) :
  is_finite y = true -> is_zero (fmul pos_zero y) = true.
Proof. now destruct y. Qed.

(** Windowing a block of zeros gives zeros. *)
Lemma np_mul_zeros (K : Kernels) (n : nat) :
  window_finite_law K ->
  exists w, np_mul (zeros n) (np_hanning K n) = Ok w /\
    length w = n /\ forallb is_zero w = true.
Proof.
  intros Hw.
  destruct (np_mul_same_length (zeros n) (np_hanning K n)) as (w & Hm & Lw).
  { unfold zeros. now rewrite repeat_length, np_hanning_length. }
  exists w. split; [exact Hm|].
  split; [unfold zeros in Lw; now rewrite repeat_length in Lw|].
  unfold np_mul in Hm.
  destruct (_ =? _)%nat; [|discriminate Hm]. injection Hm as <-.
  apply forallb_forall. intros x Hx.
  apply in_map_iff in Hx as ([a b] & <- & Hab). simpl.
  pose proof (in_combine_l _ _ _ _ Hab) as Ha.
  pose proof (in_combine_r _ _ _ _ Hab) as Hb.
  apply repeat_spec in Ha as ->.
  unfold np_hanning in Hb. apply in_map_iff in Hb as (k & <- & _).
  apply fmul_zero_finite, Hw.
Qed.

Lemma np_abs_fft_zeros (K : Kernels) (w : list float) :
  fft_zero_law K -> forallb is_zero w = true ->
  np_abs_fft K w = zeros (length w).
Proof.
  intros Hf Hz. unfold np_abs_fft, zeros.
  transitivity (map (fun _ : nat => pos_zero) (seq 0 (length w))).
  - apply map_ext. intros k. now apply Hf.
  - now rewrite map_const, length_seq.
Qed.

(** On a block of zeros every lawful choice of kernels gives the same answer. *)
Lemma analyze_zeros_any_kernels (K : Kernels) (self : KneeOADetector) (n : nat) :
  fft_zero_law K -> window_finite_law K ->
  analyze_signal K self (zeros n)
  = analyze_signal plain_kernels self (zeros n).
Proof.
  intros Hf Hw. destruct plain_kernels_lawful as [Hf' Hw'].
  unfold analyze_signal.
  destruct (length (zeros n) <? 10)%nat; [reflexivity|].
  replace (length (zeros n)) with n by (unfold zeros; now rewrite repeat_length).
  destruct (np_mul_zeros K n Hw) as (w & -> & Lw & Zw).
  destruct (np_mul_zeros plain_kernels n Hw') as (w' & -> & Lw' & Zw').
  rewrite !bind_Ok.
  rewrite (np_abs_fft_zeros K w Hf Zw), (np_abs_fft_zeros _ w' Hf' Zw').
  now rewrite Lw, Lw'.
Qed.

(** C6 fails on the code: the normalisation divides by the maximum without a
    guard, so the 22-sample block of zeros, whose raw spectrum is zero, gets a
    normalised spectrum of eleven NaNs. *)
Theorem zero_signal_spectrum_is_nan (K : Kernels) :
  fft_zero_law K -> window_finite_law K ->
  exists d dominant_freq freqs energy_ratio,
    __init__ 5000 = Ok d /\
    analyze_signal K d (zeros 22)
    = Ok (Some dominant_freq, Some freqs, Some (repeat S754_nan 11),
          Some energy_ratio).
Proof.
  intros Hf Hw. eexists. do 3 eexists. split; [reflexivity|].
  rewrite (analyze_zeros_any_kernels K _ 22 Hf Hw).
  vm_compute. reflexivity.
Qed.

Lemma zero_signal_spectrum_is_nan_witness :
  exists d dominant_freq freqs energy_ratio,
    __init__ 5000 = Ok d /\
    analyze_signal plain_kernels d (zeros 22)
    = Ok (Some dominant_freq, Some freqs, Some (repeat S754_nan 11),
          Some energy_ratio).
Proof.
  exact (zero_signal_spectrum_is_nan plain_kernels
           (proj1 plain_kernels_lawful) (proj2 plain_kernels_lawful)).
Defined.

(** C7 fails on the code: on the same block of zeros the high band holds one
    bin (454.5 Hz), its magnitude is NaN, and the energy ratio is NaN. *)
Theorem zero_signal_energy_ratio_is_nan (K : Kernels) :
  fft_zero_law K -> window_finite_law K ->
  exists d dominant_freq freqs fft_vals energy_ratio,
    __init__ 5000 = Ok d /\
    analyze_signal K d (zeros 22)
    = Ok (Some dominant_freq, Some freqs, Some fft_vals, Some energy_ratio) /\
    energy_ratio = S754_nan /\ is_finite energy_ratio = false /\
    fge energy_ratio (lit 0) = false.
Proof.
  intros Hf Hw. eexists. do 4 eexists. split; [reflexivity|].
  rewrite (analyze_zeros_any_kernels K _ 22 Hf Hw).
  split; [vm_compute; reflexivity|]. repeat split.
Qed.

Lemma zero_signal_energy_ratio_is_nan_witness :
  exists d dominant_freq freqs fft_vals,
    __init__ 5000 = Ok d /\
    analyze_signal plain_kernels d (zeros 22)
    = Ok (Some dominant_freq, Some freqs, Some fft_vals, Some S754_nan).
Proof.
  destruct (zero_signal_energy_ratio_is_nan plain_kernels
              (proj1 plain_kernels_lawful) (proj2 plain_kernels_lawful))
    as (d & f & freqs & vals & e & Hd & Ha & -> & _).
  now exists d, f, freqs, vals.
Defined.

(** Whenever [analyze_signal] returns a spectrum, the dominant frequency is
    the frequency of the first maximal bin past the first ten, and the energy
    ratio is the high-band sum over the low-band sum plus [eps]. *)
Lemma analyze_signal_features (K : Kernels) (self : KneeOADetector)
    (data : list float) (dominant_freq : float) (freqs fft_vals : list float)
    (energy_ratio : float) :
  analyze_signal K self data
  = Ok (Some dominant_freq, Some freqs, Some fft_vals, Some energy_ratio) ->
  exists i,
    np_argmax (skipn 10 fft_vals) = Ok i /\
    nth_error freqs (i + 10) = Some dominant_freq /\
    energy_ratio
    = fdiv (np_sum (mask_select
                      (map (fun f => fge f (lit 300) && flt f (lit 600)) freqs)
                      fft_vals))
           (fadd (np_sum (mask_select
                            (map (fun f => fge f (lit 50) && flt f (lit 150))
                                 freqs)
                            fft_vals))
                 eps).
Proof.
  unfold analyze_signal.
  destruct (length data <? 10)%nat; [discriminate|].
  destruct (np_mul data _) as [w|]; [rewrite bind_Ok|discriminate].
  destruct (int_truediv 1 (fs self)) as [d|]; [rewrite bind_Ok|discriminate].
  destruct (fftfreq (length data) d) as [all_freqs|];
    [rewrite bind_Ok|discriminate].
  destruct (np_max _) as [m|]; [rewrite bind_Ok|discriminate].
  destruct (np_argmax _) as [i|] eqn:Hi; [rewrite bind_Ok|discriminate].
  unfold np_index.
  destruct (nth_error _ (i + 10)) as [f|] eqn:Hn; [rewrite bind_Ok|discriminate].
  intros [= <- <- <- <-]. exists i. repeat split; assumption.
Qed.


(** * Further properties *)

(** ** Sensor names and special frequencies *)

(** X1: [get_severity_level] raises KeyError exactly for the sensor names
    other than 'piezo' and 'mic', whatever the frequency; for those two names
    it never raises and returns a level. *)
Theorem unknown_sensor_KeyError (rate : Z) (f : float) (sensor : string) :
  exists d, __init__ rate = Ok d /\
    (get_severity_level d f sensor = Raise KeyError <->
     sensor <> "piezo" /\ sensor <> "mic") /\
    (sensor = "piezo" \/ sensor = "mic" ->
     exists l, get_severity_level d f sensor = Ok l /\
               (l = 0 \/ l = 1 \/ l = 2)).
Proof.
  destruct (__init__ rate) as [d|] eqn:Hd; [|discriminate].
  exists d. split; [reflexivity|]. split; [split|].
  - intros H. split; intros ->.
    + destruct (get_severity_level_total rate d "piezo" f Hd) as (l & Hl & _);
        [now left|congruence].
    + destruct (get_severity_level_total rate d "mic" f Hd) as (l & Hl & _);
        [now right|congruence].
  - intros [Hp Hm]. injection Hd as <-.
    unfold get_severity_level, dict_get; simpl thresholds.
    rewrite lookup_insert_ne by congruence.
    rewrite lookup_insert_ne by congruence.
    now rewrite lookup_empty.
  - intros Hk. exact (get_severity_level_total rate d sensor f Hd Hk).
Qed.

Lemma unknown_sensor_KeyError_witness :
  exists d l, __init__ 5000 = Ok d /\
    get_severity_level d (lit 400) "Mic" = Raise KeyError /\
    get_severity_level d (lit 400) "mic" = Ok l.
Proof.
  destruct (unknown_sensor_KeyError 5000 (lit 400) "Mic") as (d & Hd & H & _).
  destruct (unknown_sensor_KeyError 5000 (lit 400) "mic") as (d' & Hd' & _ & H').
  rewrite Hd in Hd'. injection Hd' as <-.
  destruct (H' (or_intror eq_refl)) as (l & Hl & _).
  exists d, l. split; [exact Hd|]. split; [|exact Hl].
  apply H. split; discriminate.
Defined.

(** X2: a NaN frequency is level 0 on both channels, so [diagnose] treats it
    as 0 Hz and answers "Healthy Knee (KL Grade 0)" when both are NaN. *)
Theorem nan_frequency_is_healthy (rate : Z) (f e1 e2 : float) :
  exists d, __init__ rate = Ok d /\
    get_severity_level d S754_nan "mic" = Ok 0 /\
    get_severity_level d S754_nan "piezo" = Ok 0 /\
    diagnose d S754_nan f e1 e2 = diagnose d (lit 0) f e1 e2 /\
    diagnose d f S754_nan e1 e2 = diagnose d f (lit 0) e1 e2 /\
    exists notes,
      diagnose d S754_nan S754_nan e1 e2
      = Ok ("Healthy Knee (KL Grade 0)", notes).
Proof.
  destruct (__init__ rate) as [d|] eqn:Hd; [|discriminate].
  exists d. split; [reflexivity|].
  destruct (lower_bounds_mic rate d Hd) as [Hs Hm].
  destruct (lower_bounds_piezo rate d Hd) as [Hs' Hm'].
  assert (Hn : get_severity_level d S754_nan "mic" = Ok 0)
    by (rewrite (get_severity_level_eq d "mic" _ _ _ Hs Hm); reflexivity).
  assert (Hn' : get_severity_level d S754_nan "piezo" = Ok 0)
    by (rewrite (get_severity_level_eq d "piezo" _ _ _ Hs' Hm'); reflexivity).
  assert (Hz : get_severity_level d (lit 0) "mic" = Ok 0)
    by (rewrite (get_severity_level_eq d "mic" _ _ _ Hs Hm); reflexivity).
  assert (Hz' : get_severity_level d (lit 0) "piezo" = Ok 0)
    by (rewrite (get_severity_level_eq d "piezo" _ _ _ Hs' Hm'); reflexivity).
  repeat split; try assumption; unfold diagnose.
  - now rewrite Hn, Hz.
  - now rewrite Hn', Hz'.
  - rewrite Hn, Hn'. eexists. reflexivity.
Qed.

(** X3: the notes of every diagnosis are one to three lines followed by the
    four lines of the research basis, and neither energy argument has any
    influence on the result. *)
Theorem diagnose_notes_end_with_research_basis (rate : Z)
    (mic_freq piezo_freq mic_energy piezo_energy : float) :
  exists d label body,
    __init__ rate = Ok d /\
    diagnose d mic_freq piezo_freq mic_energy piezo_energy
    = Ok (label, body ++ research_basis) /\
    (1 <= length body <= 3)%nat /\
    length research_basis = 4%nat /\
    forall e1 e2,
      diagnose d mic_freq piezo_freq e1 e2
      = diagnose d mic_freq piezo_freq mic_energy piezo_energy.
Proof.
  destruct (__init__ rate) as [d|] eqn:Hd; [|discriminate].
  destruct (get_severity_level_total rate d "mic" mic_freq Hd) as (ml & Hm & Rm);
    [now right|].
  destruct (get_severity_level_total rate d "piezo" piezo_freq Hd)
    as (pl & Hp & Rp); [now left|].
  exists d. unfold diagnose. rewrite Hm, Hp, !bind_Ok.
  destruct Rm as [-> | [-> | ->]], Rp as [-> | [-> | ->]];
    do 2 eexists; (split; [reflexivity|]);
    (split; [reflexivity|]); (split; [simpl; lia|]);
    (split; [reflexivity|]); intros; reflexivity.
Qed.

(** ** More on filtering *)

(** X4: [preprocess] looks at the sensor name only to compare it with
    'piezo': every other name is filtered as the mic channel, and from 10
    samples on the piezo channel is the mic channel followed by the 100 Hz
    notch. *)
Theorem preprocess_sensor_paths (K : Kernels) (self : KneeOADetector)
    (data : list float) (sensor_type : string) :
  (sensor_type <> "piezo" ->
   preprocess K self data sensor_type = preprocess K self data "mic") /\
  ((10 <= length data)%nat ->
   preprocess K self data "piezo"
   = (filtered ← preprocess K self data "mic";
      '(b_h, a_h) ← iirnotch K 100 30 (fs self);
      filtfilt K b_h a_h filtered)).
Proof.
  split.
  - intros H. unfold preprocess.
    apply String.eqb_neq in H. rewrite H. reflexivity.
  - intros H. rewrite !preprocess_from_cutoffs by exact H.
    destruct (bandpass_cutoffs self) as [Wn|]; [rewrite !bind_Ok|reflexivity].
    destruct (butter K 4 Wn) as [[b a]|]; [rewrite !bind_Ok|reflexivity].
    cbn beta iota.
    destruct (filtfilt K b a data) as [y|]; [rewrite !bind_Ok|reflexivity].
    destruct (iirnotch K (notch_freq self) 30 (fs self)) as [[bn an]|];
      [rewrite !bind_Ok|reflexivity].
    cbn beta iota.
    destruct (filtfilt K bn an y) as [y'|]; [rewrite !bind_Ok|reflexivity].
    reflexivity.
Qed.

Lemma preprocess_sensor_paths_witness :
  preprocess plain_kernels (filter_settings 5000) (zeros 40) "Piezo"
  = preprocess plain_kernels (filter_settings 5000) (zeros 40) "mic" /\
  preprocess plain_kernels (filter_settings 5000) (zeros 40) "piezo"
  = (filtered ← preprocess plain_kernels (filter_settings 5000) (zeros 40) "mic";
     '(b_h, a_h) ← iirnotch plain_kernels 100 30 5000;
     filtfilt plain_kernels b_h a_h filtered).
Proof.
  destruct (preprocess_sensor_paths plain_kernels (filter_settings 5000)
              (zeros 40) "Piezo") as [H1 H2].
  split; [apply H1; discriminate|apply H2; simpl; lia].
Defined.

Lemma all_from_spec (p : Z -> bool) (n : nat) (z : Z) :
  all_from n z p = true ->
  forall x, z <= x < z + Z.of_nat n -> p x = true.
Proof.
  revert z. induction n as [|n IH]; intros z H x Hx; [lia|].
  simpl in H. apply andb_true_iff in H as [Hz Hn].
  destruct (Z.eq_dec x z) as [-> | Hne]; [exact Hz|].
  apply (IH (z + 1) Hn). lia.
Qed.

Lemma filters_accepted_1201_20000 :
  all_from (Z.to_nat 18800) 1201 filters_accepted = true.
Proof. vm_compute. reflexivity. Qed.

Lemma iirnotch_accepted (K : Kernels) (w0 rate : Z) :
  notch_accepted w0 rate = true ->
  exists b a, iirnotch K w0 30 rate = Ok (b, a) /\
    length b = 3%nat /\ length a = 3%nat.
Proof.
  unfold notch_accepted, iirnotch.
  destruct (float_of_int w0) as [w0f|]; [rewrite !bind_Ok|discriminate].
  destruct (float_of_int 30) as [Qf|]; [rewrite !bind_Ok|discriminate].
  destruct (float_of_int rate) as [fsf|]; [rewrite !bind_Ok|discriminate].
  destruct (float_truediv _ fsf) as [w|]; [rewrite !bind_Ok|discriminate].
  intros H. apply negb_true_iff in H. rewrite H.
  do 2 eexists. split; [reflexivity|]. now rewrite !length_map, length_seq.
Qed.

Lemma filters_accepted_spec (K : Kernels) (rate : Z) (d : KneeOADetector) :
  __init__ rate = Ok d ->
  filters_accepted rate = true ->
  (exists b a, (Wn ← bandpass_cutoffs d; butter K 4 Wn) = Ok (b, a) /\
     length b = 9%nat /\ length a = 9%nat) /\
  (exists b a, iirnotch K (notch_freq d) 30 (fs d) = Ok (b, a) /\
     length b = 3%nat /\ length a = 3%nat) /\
  (exists b a, iirnotch K 100 30 (fs d) = Ok (b, a) /\
     length b = 3%nat /\ length a = 3%nat).
Proof.
  intros [= <-]. unfold filters_accepted.
  change (bandpass_cutoffs (filter_settings rate))
    with (bandpass_cutoffs
            {| fs := rate; bandpass_range := (50, 600); notch_freq := 50;
               thresholds := thresholds (filter_settings rate) |}).
  unfold bandpass_cutoffs at 1 2. cbn [fs bandpass_range notch_freq fst snd].
  match goal with
  | |- match ?c with _ => _ end = true -> _ => destruct c as [[|lo [|hi [|]]]|]
  end; try discriminate.
  rewrite !andb_true_iff, !negb_true_iff.
  intros [[[[[H1 H2] H3] H4] H5] H6]. rewrite bind_Ok.
  split; [|split].
  - destruct (butter_accepts K 4 lo hi H1 H2 H3 H4) as (b & a & E & Lb & La).
    now exists b, a.
  - now apply iirnotch_accepted.
  - now apply iirnotch_accepted.
Qed.

(** X5: for every integer sampling frequency from 1201 to 20000 Hz,
    [preprocess] returns an output of the input's length for every signal of
    at least 28 samples and raises ValueError for 10 to 27 samples. *)
Theorem preprocess_length_1201_20000 (rate : Z) :
  1201 <= rate <= 20000 ->
  exists d, __init__ rate = Ok d /\
    forall (K : Kernels) (data : list float) (sensor_type : string),
      ((28 <= length data)%nat ->
       exists y, preprocess K d data sensor_type = Ok y /\
                 length y = length data) /\
      ((10 <= length data <= 27)%nat ->
       preprocess K d data sensor_type = Raise ValueError).
Proof.
  intros Hr.
  destruct (__init__ rate) as [d|] eqn:Hd; [|discriminate].
  exists d. split; [reflexivity|]. intros K data sensor_type.
  pose proof (all_from_spec _ _ _ filters_accepted_1201_20000 rate) as Hacc.
  rewrite Z2Nat.id in Hacc by lia. specialize (Hacc ltac:(lia)).
  destruct (filters_accepted_spec K rate d Hd Hacc)
    as ((b & a & Hb & Lb & La) & (bn & an & Hn & Lbn & Lan)
        & (bh & ah & Hh & Lbh & Lah)).
  assert (Hpre : forall s, (10 <= length data)%nat ->
            preprocess K d data s
            = (filtered ← filtfilt K b a data;
               '(b_notch, a_notch) ← iirnotch K (notch_freq d) 30 (fs d);
               filtered ← filtfilt K b_notch a_notch filtered;
               if String.eqb s "piezo" then
                 '(b_h, a_h) ← iirnotch K 100 30 (fs d);
                 filtfilt K b_h a_h filtered
               else Ok filtered)).
  { intros s H10. rewrite preprocess_from_cutoffs by exact H10.
    destruct (bandpass_cutoffs d) as [Wn|]; [|discriminate Hb].
    rewrite bind_Ok in Hb. rewrite bind_Ok, Hb. reflexivity. }
  split.
  - intros H. rewrite Hpre by lia.
    destruct (filtfilt_long K b a data) as (y1 & -> & L1);
      [rewrite La, Lb; simpl; lia|].
    rewrite bind_Ok, Hn, bind_Ok. cbn beta iota.
    destruct (filtfilt_long K bn an y1) as (y2 & -> & L2);
      [rewrite Lan, Lbn, L1; simpl; lia|].
    rewrite bind_Ok.
    destruct (String.eqb sensor_type "piezo").
    + rewrite Hh, bind_Ok. cbn beta iota.
      destruct (filtfilt_long K bh ah y2) as (y3 & -> & L3);
        [rewrite Lah, Lbh, L2, L1; simpl; lia|].
      exists y3. split; [reflexivity|congruence].
    + exists y2. split; [reflexivity|congruence].
  - intros [H10 H27]. rewrite Hpre by exact H10.
    rewrite filtfilt_short; [reflexivity|]. rewrite La, Lb. simpl. lia.
Qed.

Lemma preprocess_length_1201_20000_witness :
  exists d y, __init__ 1201 = Ok d /\
    preprocess plain_kernels d (zeros 30) "piezo" = Ok y /\
    length y = 30%nat.
Proof.
  destruct (preprocess_length_1201_20000 1201 ltac:(lia)) as (d & Hd & H).
  destruct (H plain_kernels (zeros 30) "piezo") as [H28 _].
  destruct H28 as (y & Hy & Ly); [simpl; lia|].
  exists d, y. repeat split; assumption.
Defined.

(** ** More on spectral analysis *)

Lemma fle_refl (x : float) : is_nan x = false -> fle x x = true.
Proof.
  unfold fle, SFleb, SFcompare.
  destruct x as [[]|[]| |[] m e]; simpl; try reflexivity; try discriminate;
    intros _; rewrite Z.compare_refl;
    change (PosDef.Pos.compare_cont Eq m m) with (Pos.compare m m);
    now rewrite Pos.compare_refl.
Qed.

(** Two floats that are not NaN are comparable. *)
Lemma fle_total (a b : float) :
  is_nan a = false -> is_nan b = false -> fle a b = false -> fle b a = true.
Proof.
  unfold fle, SFleb, SFcompare.
  destruct a as [[]|[]| |[] m1 e1], b as [[]|[]| |[] m2 e2];
    simpl; try reflexivity; try discriminate; intros _ _ H;
    change (PosDef.Pos.compare_cont Eq m1 m2) with (Pos.compare m1 m2) in H;
    change (PosDef.Pos.compare_cont Eq m2 m1) with (Pos.compare m2 m1);
    rewrite (Z.compare_antisym e1 e2), (Pos.compare_antisym m1 m2);
    destruct (e1 ?= e2), (m1 ?= m2)%positive; simpl in *; congruence.
Qed.

(** The scan of [np.argmax]: [pre] is the part already read, [mp] its maximum,
    found at index [best]. *)
Lemma argmax_from_spec (r pre : list float) (mp : float) (best i : nat) :
  is_nan mp = false ->
  nth_error (pre ++ r) best = Some mp ->
  length pre = i ->
  (forall x, In x pre -> fle x mp = true) ->
  exists y, nth_error (pre ++ r) (argmax_from mp best i r) = Some y /\
    (is_nan y = true \/ forall x, In x (pre ++ r) -> fle x y = true).
Proof.
  revert pre mp best i. induction r as [|x r IH]; intros pre mp best i Hmp Hb Hi Hpre.
  - exists mp. split; [exact Hb|]. right. now rewrite app_nil_r.
  - simpl argmax_from.
    replace (pre ++ x :: r) with ((pre ++ [x]) ++ r) in *
      by now rewrite <- app_assoc.
    assert (Hx : nth_error ((pre ++ [x]) ++ r) i = Some x).
    { rewrite <- app_assoc. simpl. rewrite nth_error_app2 by lia.
      now replace (i - length pre)%nat with 0%nat by lia. }
    destruct (fle x mp) eqn:Hle; simpl negb; cbn iota.
    + apply IH; try assumption.
      * rewrite length_app. simpl. lia.
      * intros z Hz. apply in_app_or in Hz as [Hz|[<-|[]]]; auto.
    + destruct (is_nan x) eqn:Hn.
      * exists x. split; [exact Hx|now left].
      * apply IH; try assumption.
        -- rewrite length_app. simpl. lia.
        -- pose proof (fle_total x mp Hn Hmp Hle) as Hmx.
           intros z Hz. apply in_app_or in Hz as [Hz|[<-|[]]].
           ++ exact (fle_trans z mp x (Hpre z Hz) Hmx).
           ++ now apply fle_refl.
Qed.

(** [np.argmax] points at a NaN or at an element no other exceeds. *)
Lemma np_argmax_spec (v : list float) (k : nat) :
  np_argmax v = Ok k ->
  exists y, nth_error v k = Some y /\
    (is_nan y = true \/ forall x, In x v -> fle x y = true).
Proof.
  destruct v as [|x r]; [discriminate|]. simpl. intros [= <-].
  destruct (is_nan x) eqn:Hn.
  - exists x. split; [reflexivity|now left].
  - apply (argmax_from_spec r [x] x 0 1 Hn); [reflexivity|reflexivity|].
    intros z [<-|[]]. now apply fle_refl.
Qed.

(** The shape of a successful analysis. *)
Lemma analyze_signal_inv (K : Kernels) (self : KneeOADetector)
    (data : list float) (dominant_freq : float) (freqs fft_vals : list float)
    (energy_ratio : float) :
  analyze_signal K self data
  = Ok (Some dominant_freq, Some freqs, Some fft_vals, Some energy_ratio) ->
  length freqs = (length data / 2)%nat /\
  length fft_vals = (length data / 2)%nat /\
  exists k,
    np_argmax (skipn 10 fft_vals) = Ok k /\
    nth_error freqs (k + 10) = Some dominant_freq.
Proof.
  unfold analyze_signal.
  destruct (length data <? 10)%nat; [discriminate|].
  destruct (np_mul data _) as [w|] eqn:Hw; [rewrite bind_Ok|discriminate].
  destruct (int_truediv 1 (fs self)) as [d|]; [rewrite bind_Ok|discriminate].
  destruct (fftfreq (length data) d) as [all_freqs|] eqn:Hf;
    [rewrite bind_Ok|discriminate].
  destruct (np_max _) as [m|]; [rewrite bind_Ok|discriminate].
  destruct (np_argmax _) as [k|] eqn:Hk; [rewrite bind_Ok|discriminate].
  unfold np_index.
  destruct (nth_error _ (k + 10)) as [f|] eqn:Hn; [rewrite bind_Ok|discriminate].
  intros [= <- <- <- <-].
  assert (Lw : length w = length data).
  { unfold np_mul in Hw. destruct (_ =? _)%nat eqn:E; [|discriminate].
    injection Hw as <-. apply Nat.eqb_eq in E.
    rewrite length_map, length_combine, <- E. apply Nat.min_id. }
  assert (Lf : (length data / 2 <= length all_freqs)%nat).
  { unfold fftfreq in Hf. destruct (float_truediv _ _); [|discriminate].
    rewrite bind_Ok in Hf. injection Hf as <-.
    rewrite length_map, length_app, !length_map, !length_seq.
    apply Nat.le_add_l. }
  split; [|split].
  - rewrite length_firstn. apply Nat.min_l, Lf.
  - rewrite length_map, length_firstn, np_abs_fft_length, Lw.
    apply Nat.min_l, Nat.Div0.div_le_upper_bound. lia.
  - exists k. split; assumption.
Qed.

(** X6: when [analyze_signal] returns a spectrum, the signal has at least 22
    samples, the frequency axis and the magnitudes both have [n // 2] entries,
    and the dominant frequency is the axis entry of a bin from the tenth on. *)
Theorem analyze_signal_shape (K : Kernels) (self : KneeOADetector)
    (data : list float) (dominant_freq : float) (freqs fft_vals : list float)
    (energy_ratio : float) :
  analyze_signal K self data
  = Ok (Some dominant_freq, Some freqs, Some fft_vals, Some energy_ratio) ->
  (22 <= length data)%nat /\
  length freqs = (length data / 2)%nat /\
  length fft_vals = (length data / 2)%nat /\
  exists i, (10 <= i < length data / 2)%nat /\
    nth_error freqs i = Some dominant_freq.
Proof.
  intros H. destruct (analyze_signal_inv _ _ _ _ _ _ _ H) as (Lf & Lv & k & Hk & Hn).
  assert (Hi : (k + 10 < length data / 2)%nat).
  { rewrite <- Lf. apply nth_error_Some. congruence. }
  assert (H22 : (22 <= length data)%nat).
  { destruct (Nat.lt_ge_cases (length data) 22) as [Hlt|]; [|assumption].
    assert (length data / 2 <= 10)%nat; [|lia].
    apply Nat.lt_succ_r, Nat.Div0.div_lt_upper_bound. lia. }
  repeat split; try assumption.
  exists (k + 10)%nat. split; [lia|assumption].
Qed.

Lemma analyze_signal_shape_witness :
  exists d f freqs vals e,
    __init__ 5000 = Ok d /\
    analyze_signal plain_kernels d (map lit (map Z.of_nat (seq 1 24)))
    = Ok (Some f, Some freqs, Some vals, Some e) /\
    length freqs = 12%nat /\ length vals = 12%nat.
Proof.
  destruct (__init__ 5000) as [d|] eqn:Hd; [|discriminate].
  injection Hd as Hd.
  let r := eval vm_compute in
             (analyze_signal plain_kernels
                {| fs := 5000; bandpass_range := (50, 600); notch_freq := 50;
                   thresholds := thresholds d |}
                (map lit (map Z.of_nat (seq 1 24)))) in
  assert (H : analyze_signal plain_kernels d (map lit (map Z.of_nat (seq 1 24)))
              = r) by (subst d; vm_compute; reflexivity).
  destruct (analyze_signal_shape _ _ _ _ _ _ _ H) as (_ & Lf & Lv & _).
  exists d. do 4 eexists. split; [reflexivity|]. split; [exact H|].
  split; [exact Lf|exact Lv].
Defined.

(** X7: when [analyze_signal] returns a spectrum, the normalised magnitude at
    the dominant bin is NaN, or no bin from the tenth on exceeds it. *)
Theorem dominant_bin_is_maximal (K : Kernels) (self : KneeOADetector)
    (data : list float) (dominant_freq : float) (freqs fft_vals : list float)
    (energy_ratio : float) :
  analyze_signal K self data
  = Ok (Some dominant_freq, Some freqs, Some fft_vals, Some energy_ratio) ->
  exists i y,
    (10 <= i)%nat /\
    nth_error freqs i = Some dominant_freq /\
    nth_error fft_vals i = Some y /\
    (is_nan y = true \/
     forall j x, (10 <= j)%nat -> nth_error fft_vals j = Some x ->
                 fle x y = true).
Proof.
  intros H. destruct (analyze_signal_inv _ _ _ _ _ _ _ H) as (_ & _ & k & Hk & Hn).
  destruct (np_argmax_spec _ _ Hk) as (y & Hy & Hmax).
  exists (k + 10)%nat, y. split; [lia|]. split; [exact Hn|].
  rewrite nth_error_skipn in Hy. rewrite (Nat.add_comm k 10). split; [exact Hy|].
  destruct Hmax as [Hnan|Hmax]; [now left|right].
  intros j x Hj Hx. apply Hmax.
  apply (nth_error_In _ (j - 10)). rewrite nth_error_skipn.
  now replace (10 + (j - 10))%nat with j by lia.
Qed.

Lemma dominant_bin_is_maximal_witness :
  exists d f freqs vals e y,
    __init__ 5000 = Ok d /\
    analyze_signal plain_kernels d (map lit (map Z.of_nat (seq 1 24)))
    = Ok (Some f, Some freqs, Some vals, Some e) /\
    nth_error vals 11 = Some y /\
    forall x, nth_error vals 10 = Some x -> fle x y = true.
Proof.
  destruct (__init__ 5000) as [d|] eqn:Hd; [|discriminate].
  injection Hd as Hd.
  let r := eval vm_compute in
             (analyze_signal plain_kernels
                {| fs := 5000; bandpass_range := (50, 600); notch_freq := 50;
                   thresholds := thresholds d |}
                (map lit (map Z.of_nat (seq 1 24)))) in
  assert (H : analyze_signal plain_kernels d (map lit (map Z.of_nat (seq 1 24)))
              = r) by (subst d; vm_compute; reflexivity).
  destruct (dominant_bin_is_maximal _ _ _ _ _ _ _ H)
    as (i & y & Hi & Hf & Hy & Hmax).
  exists d. do 4 eexists. exists y. split; [reflexivity|]. split; [exact H|].
  assert (i = 11%nat) as ->.
  { destruct i as [|[|[|[|[|[|[|[|[|[|[|[|i]]]]]]]]]]]]; try lia;
      try reflexivity; try discriminate Hf. destruct i; discriminate Hy. }
  split; [exact Hy|].
  intros x Hx. destruct Hmax as [Hnan|Hmax].
  - simpl in Hy. injection Hy as <-. discriminate Hnan.
  - exact (Hmax 10%nat x ltac:(lia) Hx).
Defined.

(** X8: with a sampling frequency of 0 both methods raise ZeroDivisionError
    on every signal of at least 10 samples: [preprocess] when it divides by
    [fs / 2], [analyze_signal] when it computes [1 / fs]. *)
Theorem zero_rate_ZeroDivisionError (K : Kernels) (data : list float)
    (sensor_type : string) :
  exists d, __init__ 0 = Ok d /\
    ((10 <= length data)%nat ->
     preprocess K d data sensor_type = Raise ZeroDivisionError /\
     analyze_signal K d data = Raise ZeroDivisionError).
Proof.
  eexists. split; [reflexivity|]. intros H. split.
  - rewrite preprocess_from_cutoffs by exact H. reflexivity.
  - unfold analyze_signal.
    destruct (Nat.ltb_spec (length data) 10) as [H'|_]; [lia|].
    destruct (np_mul_same_length data (np_hanning K (length data)))
      as (w & -> & _); [now rewrite np_hanning_length|].
    reflexivity.
Qed.

Lemma zero_rate_ZeroDivisionError_witness :
  exists d, __init__ 0 = Ok d /\
    preprocess plain_kernels d (zeros 30) "mic" = Raise ZeroDivisionError /\
    analyze_signal plain_kernels d (zeros 30) = Raise ZeroDivisionError.
Proof.
  destruct (zero_rate_ZeroDivisionError plain_kernels (zeros 30) "mic")
    as (d & Hd & H).
  exists d. split; [exact Hd|]. apply H. simpl. lia.
Defined.

(** ** Abnormality check *)

Lemma selected_le_length {A : Type} (p : A -> bool) (l : list A) :
  (length (List.filter p l) <= length l)%nat.
Proof.
  induction l as [|x l IH]; simpl; [lia|]. destruct (p x); simpl; lia.
Qed.

(** X9: whatever the standard deviation, [is_abnormal] answers False for a
    signal of at most 10 samples; a signal flagged abnormal has at least 11. *)
Theorem is_abnormal_needs_11_samples (np_std : list float -> float)
    (self : KneeOADetector) (signal : list float) :
  ((length signal <= 10)%nat -> is_abnormal np_std self signal = false) /\
  (is_abnormal np_std self signal = true -> (11 <= length signal)%nat).
Proof.
  unfold is_abnormal.
  pose proof (selected_le_length
                (fun x => flt (fmul (lit 3) (np_std signal)) (SFabs x)) signal)
    as Hle.
  split.
  - intros H. apply Z.ltb_ge. lia.
  - intros H. apply Z.ltb_lt in H. lia.
Qed.

Lemma is_abnormal_needs_11_samples_witness :
  is_abnormal flat_std (filter_settings 5000)
    (map lit [1; 2; 3; 4; 5; 6; 7; 8; 9; 10]) = false.
Proof.
  apply (is_abnormal_needs_11_samples flat_std (filter_settings 5000)
           (map lit [1; 2; 3; 4; 5; 6; 7; 8; 9; 10])).
  rewrite length_map. simpl. lia.
Defined.

Lemma fmul_3_signed (std : float) :
  signed false std -> signed false (fmul (lit 3) std).
Proof.
  destruct std as [s|s| |s m e]; simpl; try contradiction; intros ->.
  - reflexivity.
  - reflexivity.
  - unfold fmul. change (lit 3) with (S754_finite false 6755399441055744 (-51)).
    unfold SFmul. apply binary_round_aux_signed. lia.
Qed.

Lemma selected_zeros (p : float -> bool) (k : nat) :
  p pos_zero = false -> List.filter p (repeat pos_zero k) = [].
Proof.
  intros Hp. induction k as [|k IH]; [reflexivity|]. simpl. now rewrite Hp.
Qed.

(** X10: a block of zeros is never flagged abnormal, of whatever length,
    when its standard deviation is NaN or not negative. *)
Theorem zeros_never_abnormal (np_std : list float -> float)
    (self : KneeOADetector) (n : nat) :
  is_nan (np_std (zeros n)) = true \/ signed false (np_std (zeros n)) ->
  is_abnormal np_std self (zeros n) = false.
Proof.
  intros Hstd. unfold is_abnormal.
  assert (Hf : List.filter (fun x => flt (fmul (lit 3) (np_std (zeros n))) (SFabs x))
                 (zeros n) = []).
  { assert (Hp : flt (fmul (lit 3) (np_std (zeros n))) (SFabs pos_zero) = false).
    { destruct Hstd as [Hnan|Hs].
      - destruct (np_std (zeros n)); try discriminate Hnan. reflexivity.
      - apply fmul_3_signed in Hs.
        destruct (fmul (lit 3) (np_std (zeros n))) as [s|s| |s m e];
          simpl in Hs; try contradiction; subst; reflexivity. }
    unfold zeros at 2. now apply selected_zeros. }
  rewrite Hf. reflexivity.
Qed.

Lemma zeros_never_abnormal_witness :
  is_abnormal flat_std (filter_settings 5000) (zeros 5000) = false.
Proof.
  apply (zeros_never_abnormal flat_std (filter_settings 5000) 5000).
  right. reflexivity.
Defined.

(** ** Data loading *)

Local Ltac split_matches :=
  repeat match goal with
  | |- context [match ?x with _ => _ end] => destruct x
  end.

(** One line adds at most one sample to each list, never a piezo sample
    without a mic sample, and does not look at what was read before. *)
Lemma load_line_appends (py_float : pystr -> option float)
    (acc : list float * list float) (line : pystr) :
  exists dm dp,
    load_line py_float ([], []) line = (dm, dp) /\
    load_line py_float acc line = (fst acc ++ dm, snd acc ++ dp) /\
    (length dp <= length dm <= 1)%nat.
Proof.
  destruct acc as [m p]. unfold load_line. simpl fst; simpl snd.
  split_matches;
    (exists [], []; rewrite !app_nil_r; repeat split; simpl; lia) ||
    (eexists [_], []; rewrite ?app_nil_r; repeat split; simpl; lia) ||
    (eexists [_], [_]; repeat split; simpl; lia).
Qed.

Lemma load_lines_appends (py_float : pystr -> option float)
    (lines : list pystr) (acc : list float * list float) :
  fold_left (load_line py_float) lines acc
  = (fst acc ++ fst (fold_left (load_line py_float) lines ([], [])),
     snd acc ++ snd (fold_left (load_line py_float) lines ([], []))).
Proof.
  revert acc. induction lines as [|line lines IH]; intros acc.
  - simpl. rewrite !app_nil_r. now destruct acc.
  - cbn [fold_left].
    destruct (load_line_appends py_float acc line) as (dm & dp & H0 & H1 & _).
    rewrite H0, H1, IH, (IH (dm, dp)). cbn [fst snd]. now rewrite !app_assoc.
Qed.

Lemma load_lines_lengths (py_float : pystr -> option float)
    (lines : list pystr) :
  let r := fold_left (load_line py_float) lines ([], []) in
  (length (snd r) <= length (fst r) <= length lines)%nat.
Proof.
  induction lines as [|line lines IH] using rev_ind; [simpl; lia|].
  cbv zeta in *. rewrite fold_left_app. cbn [fold_left].
  destruct (load_line_appends py_float
              (fold_left (load_line py_float) lines ([], [])) line)
    as (dm & dp & _ & -> & Hl).
  cbn [fst snd]. rewrite !length_app. cbn [length]. lia.
Qed.

(** X11: [load_data] returns at most one sample pair per line, and never more
    piezo samples than mic samples. *)
Theorem load_data_lengths (py_float : pystr -> option float)
    (self : KneeOADetector) (lines : list pystr) :
  exists mic_data piezo_data,
    load_data py_float self (Some lines) = Ok (mic_data, piezo_data) /\
    (length piezo_data <= length mic_data <= length lines)%nat.
Proof.
  unfold load_data.
  pose proof (load_lines_lengths py_float lines) as H. cbv zeta in H.
  destruct (fold_left (load_line py_float) lines ([], [])) as [m p].
  now exists m, p.
Qed.

(** X12: the lines are read independently and in order: loading the
    concatenation of two files gives the concatenation of their samples. *)
Theorem load_data_app (py_float : pystr -> option float)
    (self : KneeOADetector) (lines1 lines2 : list pystr) :
  exists m1 p1 m2 p2,
    load_data py_float self (Some lines1) = Ok (m1, p1) /\
    load_data py_float self (Some lines2) = Ok (m2, p2) /\
    load_data py_float self (Some (lines1 ++ lines2))
    = Ok (m1 ++ m2, p1 ++ p2).
Proof.
  unfold load_data. rewrite fold_left_app.
  rewrite (load_lines_appends py_float lines2
             (fold_left (load_line py_float) lines1 ([], []))).
  destruct (fold_left (load_line py_float) lines1 ([], [])) as [m1 p1].
  destruct (fold_left (load_line py_float) lines2 ([], [])) as [m2 p2].
  exists m1, p1, m2, p2. repeat split.
Qed.

Lemma starts_with_app (n a b : pystr) :
  starts_with n a = true -> starts_with n (a ++ b) = true.
Proof.
  revert a. induction n as [|c n IH]; intros a H; [reflexivity|].
  destruct a as [|x a]; [discriminate H|]. simpl in *.
  apply andb_true_iff in H as [-> H]. now apply IH.
Qed.

Lemma str_contains_app_r (n a b : pystr) :
  str_contains n a = true -> str_contains n (a ++ b) = true.
Proof.
  induction a as [|x a IH]; intros H.
  - destruct n; [now destruct b|discriminate H].
  - cbn [app str_contains] in *. apply orb_true_iff in H as [H|H].
    + pose proof (starts_with_app n (x :: a) b H) as Hs.
      cbn [app] in Hs. now rewrite Hs.
    + rewrite (IH H). apply orb_true_r.
Qed.

Lemma str_contains_app_l (n a b : pystr) :
  str_contains n b = true -> str_contains n (a ++ b) = true.
Proof.
  intros H. induction a as [|x a IH]; [exact H|].
  cbn [app str_contains]. rewrite IH. apply orb_true_r.
Qed.

Lemma lstrip_suffix (s : pystr) : exists pre, s = pre ++ lstrip s.
Proof.
  induction s as [|c s [pre IH]]; [now exists []|].
  simpl. destruct (is_space c).
  - exists (c :: pre). simpl. now rewrite <- IH.
  - now exists [].
Qed.

(** What the stripped line contains, the line contains. *)
Lemma str_contains_strip (n s : pystr) :
  str_contains n (str_strip s) = true -> str_contains n s = true.
Proof.
  unfold str_strip. intros H.
  destruct (lstrip_suffix s) as [pre Hs].
  destruct (lstrip_suffix (rev (lstrip s))) as [post Hr].
  rewrite Hs. apply str_contains_app_l.
  rewrite <- (rev_involutive (lstrip s)), Hr, rev_app_distr.
  now apply str_contains_app_r.
Qed.

Lemma lstrip_spaces (s : pystr) : forallb is_space s = true -> lstrip s = [].
Proof.
  induction s as [|c s IH]; [reflexivity|]. simpl.
  intros H. apply andb_true_iff in H as [-> H]. now apply IH.
Qed.

(** A line that [load_data] passes over: only whitespace, or without a comma
    and without the two labels. *)
Lemma load_line_ignored (py_float : pystr -> option float)
    (acc : list float * list float) (line : pystr) :
  forallb is_space line = true \/
  (str_contains (py ",") line = false /\
   str_contains (py "Mic") line && str_contains (py "Piezo") line = false) ->
  load_line py_float acc line = acc.
Proof.
  intros H. destruct acc as [m p]. unfold load_line.
  destruct H as [H|[Hc Hl]].
  - unfold str_strip. now rewrite (lstrip_spaces line H).
  - destruct (str_strip line) as [|c r] eqn:E; [reflexivity|]. rewrite <- E.
    assert (Hl' : str_contains (py "Mic") (str_strip line)
                  && str_contains (py "Piezo") (str_strip line) = false).
    { destruct (str_contains (py "Mic") (str_strip line)) eqn:E1; [|reflexivity].
      destruct (str_contains (py "Piezo") (str_strip line)) eqn:E2; [|reflexivity].
      now rewrite (str_contains_strip _ _ E1), (str_contains_strip _ _ E2) in Hl. }
    assert (Hc' : str_contains (py ",") (str_strip line) = false).
    { destruct (str_contains (py ",") (str_strip line)) eqn:E1; [|reflexivity].
      now rewrite (str_contains_strip _ _ E1) in Hc. }
    now rewrite Hl', Hc'.
Qed.

(** X13: a line of whitespace, or a line with no comma that lacks one of the
    labels 'Mic' and 'Piezo', can be removed from the file without changing
    what [load_data] returns. *)
Theorem load_data_ignores_line (py_float : pystr -> option float)
    (self : KneeOADetector) (lines1 lines2 : list pystr) (line : pystr) :
  forallb is_space line = true \/
  (str_contains (py ",") line = false /\
   str_contains (py "Mic") line && str_contains (py "Piezo") line = false) ->
  load_data py_float self (Some (lines1 ++ line :: lines2))
  = load_data py_float self (Some (lines1 ++ lines2)).
Proof.
  intros H. unfold load_data. rewrite !fold_left_app. cbn [fold_left].
  now rewrite (load_line_ignored py_float _ line H).
Qed.

Lemma load_data_ignores_line_witness :
  load_data digits_float (filter_settings 5000)
    (Some [py "12,7"; py "# header"; py "3,4"])
  = load_data digits_float (filter_settings 5000)
      (Some [py "12,7"; py "3,4"]).
Proof.
  apply (load_data_ignores_line digits_float (filter_settings 5000)
           [py "12,7"] [py "3,4"]
           (py "# header")).
  right. split; reflexivity.
Defined.

(** A line without the two labels adds to both lists or to none. *)
Lemma load_line_unlabelled (py_float : pystr -> option float)
    (acc : list float * list float) (line : pystr) :
  str_contains (py "Mic") line && str_contains (py "Piezo") line = false ->
  length (fst acc) = length (snd acc) ->
  length (fst (load_line py_float acc line))
  = length (snd (load_line py_float acc line)).
Proof.
  intros Hl Hacc. destruct acc as [m p]. unfold load_line.
  destruct (str_strip line) as [|c r] eqn:E; [exact Hacc|]. rewrite <- E.
  assert (Hl' : str_contains (py "Mic") (str_strip line)
                && str_contains (py "Piezo") (str_strip line) = false).
  { destruct (str_contains (py "Mic") (str_strip line)) eqn:E1; [|reflexivity].
    destruct (str_contains (py "Piezo") (str_strip line)) eqn:E2; [|reflexivity].
    now rewrite (str_contains_strip _ _ E1), (str_contains_strip _ _ E2) in Hl. }
  rewrite Hl'. simpl in Hacc.
  split_matches; cbn [fst snd]; rewrite ?length_app; cbn [length]; lia.
Qed.

(** X14: when no line holds both labels 'Mic' and 'Piezo' (a comma-separated
    file), [load_data] returns as many piezo samples as mic samples. *)
Theorem load_data_csv_equal_lengths (py_float : pystr -> option float)
    (self : KneeOADetector) (lines : list pystr) :
  Forall (fun line =>
            str_contains (py "Mic") line && str_contains (py "Piezo") line
            = false) lines ->
  exists mic_data piezo_data,
    load_data py_float self (Some lines) = Ok (mic_data, piezo_data) /\
    length mic_data = length piezo_data.
Proof.
  intros H. unfold load_data.
  assert (Hinv : forall acc,
            length (fst acc) = length (snd acc) ->
            length (fst (fold_left (load_line py_float) lines acc))
            = length (snd (fold_left (load_line py_float) lines acc))).
  { induction H as [|line lines Hline _ IH]; intros acc Hacc; [exact Hacc|].
    cbn [fold_left]. apply IH. now apply load_line_unlabelled. }
  specialize (Hinv ([], []) eq_refl).
  destruct (fold_left (load_line py_float) lines ([], [])) as [m p].
  now exists m, p.
Qed.

Lemma load_data_csv_equal_lengths_witness :
  exists mic_data piezo_data,
    load_data digits_float (filter_settings 5000)
      (Some [py "12,7"; py "x,1"; py "3,4"; py "5"])
    = Ok (mic_data, piezo_data) /\
    length mic_data = length piezo_data.
Proof.
  apply (load_data_csv_equal_lengths digits_float (filter_settings 5000)
           [py "12,7"; py "x,1"; py "3,4"; py "5"]).
  repeat constructor.
Defined.



Lemma digit_facts (c : N) :
  is_digit c = true ->
  is_space c = false /\ (c =? 58)%N = false /\ (c =? 80)%N = false.
Proof.
  unfold is_digit, is_space. intros H.
  apply andb_true_iff in H as [H1 H2].
  apply N.leb_le in H1, H2.
  repeat split;
    repeat match goal with
    | |- context [(?a <=? ?b)%N] => destruct (N.leb_spec a b)
    | |- context [(?a =? ?b)%N] => destruct (N.eqb_spec a b)
    end; simpl; try reflexivity; lia.
Qed.

Lemma str_replace_digits (t : pystr) :
  forallb is_digit t = true -> str_replace 58 32 t = t.
Proof.
  induction t as [|c t IH]; [reflexivity|]. simpl. intros H.
  apply andb_true_iff in H as [Hc Ht].
  destruct (digit_facts c Hc) as (_ & -> & _). now rewrite IH.
Qed.

(** Reading a run of digits extends the current token. *)
Lemma split_ws_digits (t cur rest : pystr) :
  forallb is_digit t = true ->
  split_ws_from cur (t ++ rest) = split_ws_from (rev t ++ cur) rest.
Proof.
  revert cur. induction t as [|c t IH]; intros cur H; [reflexivity|].
  simpl in H. apply andb_true_iff in H as [Hc Ht].
  destruct (digit_facts c Hc) as (Hs & _ & _).
  cbn [app split_ws_from rev]. rewrite Hs, IH by exact Ht.
  now rewrite <- app_assoc.
Qed.

(** A string that neither starts nor ends with whitespace is its own strip. *)
Lemma str_strip_ends (c c' : N) (mid : pystr) :
  is_space c = false -> is_space c' = false ->
  str_strip (c :: mid ++ [c']) = c :: mid ++ [c'].
Proof.
  intros Hc Hc'. unfold str_strip. cbn [lstrip]. rewrite Hc.
  change (c :: mid ++ [c']) with ((c :: mid) ++ [c']).
  rewrite rev_app_distr. cbn [rev app lstrip]. rewrite Hc'.
  change (c' :: rev mid ++ [c]) with ([c'] ++ rev (c :: mid)).
  now rewrite rev_app_distr, rev_involutive.
Qed.

(** X15: a labelled line whose piezo value is missing, 'Mic: <digits> Piezo:',
    adds a mic sample and no piezo sample: after it the two lists differ in
    length. *)
Theorem labelled_line_without_piezo_value (py_float : pystr -> option float)
    (self : KneeOADetector) (t : pystr) (v : float) :
  t <> [] -> forallb is_digit t = true -> py_float t = Some v ->
  load_data py_float self (Some [py "Mic: " ++ t ++ py " Piezo:"])
  = Ok ([v], []).
Proof.
  intros Hne Hd Hv. unfold load_data. cbn [fold_left]. unfold load_line.
  assert (Hstrip : str_strip (py "Mic: " ++ t ++ py " Piezo:")
                   = py "Mic: " ++ t ++ py " Piezo:").
  { assert (E : py "Mic: " ++ t ++ py " Piezo:"
                = 77%N :: (py "ic: " ++ t ++ py " Piezo") ++ [58%N]).
    { change (py " Piezo:") with (py " Piezo" ++ [58%N]).
      change (py "Mic: ") with ([77%N] ++ py "ic: ").
      rewrite <- !app_assoc. reflexivity. }
    rewrite E. now apply str_strip_ends. }
  rewrite Hstrip.
  assert (Hmic : str_contains (py "Mic") (py "Mic: " ++ t ++ py " Piezo:") = true)
    by reflexivity.
  assert (Hpz : str_contains (py "Piezo") (py "Mic: " ++ t ++ py " Piezo:") = true).
  { apply str_contains_app_l, str_contains_app_l. reflexivity. }
  rewrite Hmic, Hpz. cbn [andb].
  assert (Hparts : str_split (str_replace 58 32 (py "Mic: " ++ t ++ py " Piezo:"))
                   = [py "Mic"; t; py "Piezo"]).
  { unfold str_replace. rewrite !map_app. fold (str_replace 58 32 t).
    rewrite (str_replace_digits t Hd). unfold str_split.
    change (map _ (py "Mic: ")) with (py "Mic  ").
    change (map _ (py " Piezo:")) with (py " Piezo ").
    change (split_ws_from [] (py "Mic  " ++ t ++ py " Piezo "))
      with (py "Mic" :: split_ws_from [] (t ++ py " Piezo ")).
    rewrite (split_ws_digits t [] _ Hd), app_nil_r.
    destruct (rev t) as [|c r] eqn:Hr.
    - apply (f_equal (@rev N)) in Hr. rewrite rev_involutive in Hr. contradiction.
    - change (split_ws_from (c :: r) (py " Piezo "))
        with (rev (c :: r) :: [py "Piezo"]).
      now rewrite <- Hr, rev_involutive. }
  destruct t as [|c t']; [contradiction|].
  simpl in Hd. apply andb_true_iff in Hd as [Hc Hd].
  destruct (digit_facts c Hc) as (_ & _ & H80).
  assert (Hi : list_index (py "Piezo") [py "Mic"; c :: t'; py "Piezo"] = Some 2%nat).
  { cbn [list_index]. change (pystr_eqb (py "Mic") (py "Piezo")) with false.
    cbn iota. unfold pystr_eqb at 1.
    change (starts_with (c :: t') (py "Piezo"))
      with ((c =? 80)%N && starts_with t' (py "iezo")).
    rewrite H80, andb_false_r. reflexivity. }
  match goal with
  | |- context [match ?p with [] => _ | _ :: _ => _ end] =>
      change p with (py "Mic: " ++ (c :: t') ++ py " Piezo:")
  end.
  change (py "Mic: " ++ (c :: t') ++ py " Piezo:")
    with (77%N :: (py "ic: " ++ (c :: t') ++ py " Piezo:")) at 1.
  cbn iota. rewrite Hparts, Hi.
  change (list_index (py "Mic") [py "Mic"; c :: t'; py "Piezo"])
    with (Some 0%nat).
  cbn [Nat.add nth_error]. rewrite Hv. reflexivity.
Qed.

Lemma labelled_line_without_piezo_value_witness :
  load_data digits_float (filter_settings 5000) (Some [py "Mic: 123 Piezo:"])
  = Ok ([lit 123], []).
Proof.
  apply (labelled_line_without_piezo_value digits_float (filter_settings 5000)
           (py "123") (lit 123)).
  - discriminate.
  - reflexivity.
  - reflexivity.
Defined.

(** ** From the file to the analysis *)

(** X16: a file of fewer than 10 lines is loaded but not analysed: both
    channels come back from [preprocess] unchanged and [analyze_signal] answers
    with four [None]s for each. *)
Theorem short_file_is_not_analysed (py_float : pystr -> option float)
    (K : Kernels) (self : KneeOADetector) (lines : list pystr) :
  (length lines < 10)%nat ->
  exists mic_raw piezo_raw,
    load_data py_float self (Some lines) = Ok (mic_raw, piezo_raw) /\
    preprocess K self mic_raw "mic" = Ok mic_raw /\
    preprocess K self piezo_raw "piezo" = Ok piezo_raw /\
    analyze_signal K self mic_raw = Ok (None, None, None, None) /\
    analyze_signal K self piezo_raw = Ok (None, None, None, None).
Proof.
  intros H. unfold load_data.
  pose proof (load_lines_lengths py_float lines) as Hl. cbv zeta in Hl.
  destruct (fold_left (load_line py_float) lines ([], [])) as [m p].
  cbn [fst snd] in Hl. exists m, p. split; [reflexivity|].
  repeat split;
    (apply preprocess_short || apply analyze_signal_short); lia.
Qed.

Lemma short_file_is_not_analysed_witness :
  exists d mic_raw piezo_raw,
    __init__ 5000 = Ok d /\
    load_data digits_float d (Some [py "12,7"; py "Mic: 3 Piezo: 4"])
    = Ok (mic_raw, piezo_raw) /\
    analyze_signal plain_kernels d mic_raw = Ok (None, None, None, None).
Proof.
  destruct (__init__ 5000) as [d|] eqn:Hd; [|discriminate].
  destruct (short_file_is_not_analysed digits_float plain_kernels d
              [py "12,7"; py "Mic: 3 Piezo: 4"])
    as (m & p & Hl & _ & _ & Hm & _); [simpl; lia|].
  exists d, m, p. repeat split; assumption.
Defined.
